(** * Audiobookshelf author metadata updater (src/wiki.py)

    A shallow embedding of [AudiobookshelfMetadataUpdater] and the proofs of
    the properties its specification states.

    Python values that travel through the program (decoded JSON, dictionary
    entries, keyword arguments) are values of [pyval].  Every observable
    effect of the program (an HTTP request, a log record, a call of
    [time.sleep]) is an [event]; a computation threads the list of the
    events performed so far and either returns a value or raises a Python
    exception.  The answers of the two remote services are given by a
    [world], which is a parameter of the whole development. *)

From Stdlib Require Import List ZArith NArith Bool String Ascii Lia Floats.
Import ListNotations.

Set Implicit Arguments.
Set Warnings "-register-all".

(** ** Python values *)

(** A Python [str] is a sequence of Unicode code points. *)
Definition pystr := list N.

Definition code_point (a : ascii) : N := N_of_ascii a.

(** An ASCII literal of the source, as a Python [str]. *)
Definition lit (s : string) : pystr := map code_point (list_ascii_of_string s).

Definition pystr_eqb (a b : pystr) : bool :=
  if list_eq_dec N.eq_dec a b then true else false.

(** What [json.loads] can return, and [None]. A [dict] is the list of its
    items in insertion order; its keys are pairwise distinct. *)
Inductive pyval : Type :=
| PyNone
| PyBool (b : bool)
| PyInt (z : Z)
| PyFloat (f : float)
| PyStr (s : pystr)
| PyList (l : list pyval)
| PyDict (d : list (pystr * pyval)).

(** Python truth value testing: [bool(v)]. *)
Definition truthy (v : pyval) : bool :=
  match v with
  | PyNone => false
  | PyBool b => b
  | PyInt z => negb (z =? 0)%Z
  | PyFloat f => negb (PrimFloat.eqb f 0%float)
  | PyStr s => match s with [] => false | _ => true end
  | PyList l => match l with [] => false | _ => true end
  | PyDict d => match d with [] => false | _ => true end
  end.

(** The exceptions the program can meet; all derive from [Exception]. *)
Inductive exn : Type :=
| AttributeError
| TypeError
| KeyError
| IndexError
| StopIteration
| JSONDecodeError
| RequestException
| HTTPError (status_code : Z)
| ValueError
| OverflowError.

Inductive result (A : Type) : Type :=
| Ok (a : A)
| Raise (e : exn).
Arguments Ok {A} a.
Arguments Raise {A} e.

(** Item lookup in a [dict]. *)
Fixpoint dict_find (d : list (pystr * pyval)) (k : pystr) : option pyval :=
  match d with
  | [] => None
  | (k', v) :: d' => if pystr_eqb k' k then Some v else dict_find d' k
  end.

(** [d.get(k, default)] on the items [d] of a [dict]. *)
Definition dict_get (d : list (pystr * pyval)) (k : pystr) (default : pyval) : pyval :=
  match dict_find d k with
  | Some x => x
  | None => default
  end.

(** [v.get(k, default)]: only a [dict] has the method. *)
Definition py_get (v : pyval) (k : pystr) (default : pyval) : result pyval :=
  match v with
  | PyDict d => Ok (dict_get d k default)
  | _ => Raise AttributeError
  end.

(** [v[k]] for a [str] key [k]. *)
Definition py_getitem (v : pyval) (k : pystr) : result pyval :=
  match v with
  | PyDict d => match dict_find d k with Some x => Ok x | None => Raise KeyError end
  | _ => Raise TypeError
  end.

(** [v[0]]. The keys of a decoded JSON object are strings, so the integer
    key [0] is never found in one. *)
Definition py_getitem0 (v : pyval) : result pyval :=
  match v with
  | PyList (x :: _) => Ok x
  | PyList [] => Raise IndexError
  | PyStr (c :: _) => Ok (PyStr [c])
  | PyStr [] => Raise IndexError
  | PyDict _ => Raise KeyError
  | _ => Raise TypeError
  end.

(** [len(v)]. *)
Definition py_len (v : pyval) : result nat :=
  match v with
  | PyStr s => Ok (List.length s)
  | PyList l => Ok (List.length l)
  | PyDict d => Ok (List.length d)
  | _ => Raise TypeError
  end.

(** The items a [for] loop over [v] visits: the elements of a list, the keys
    of a dict, the characters of a string. *)
Definition py_iter (v : pyval) : result (list pyval) :=
  match v with
  | PyList l => Ok l
  | PyDict d => Ok (map (fun kv => PyStr (fst kv)) d)
  | PyStr s => Ok (map (fun c => PyStr [c]) s)
  | _ => Raise TypeError
  end.

(** [next(iter(v.values()))]. *)
Definition py_first_value (v : pyval) : result pyval :=
  match v with
  | PyDict [] => Raise StopIteration
  | PyDict ((_, x) :: _) => Ok x
  | _ => Raise AttributeError
  end.

(** *** Strings *)

(** [str.isspace] on one code point (CPython's [_PyUnicode_IsWhitespace]). *)
Definition py_isspace (c : N) : bool :=
  ((9 <=? c) && (c <=? 13) || (28 <=? c) && (c <=? 32)
   || (c =? 133) || (c =? 160) || (c =? 5760)
   || (8192 <=? c) && (c <=? 8202)
   || (c =? 8232) || (c =? 8233) || (c =? 8239) || (c =? 8287)
   || (c =? 12288))%N.

Fixpoint lstrip (s : pystr) : pystr :=
  match s with
  | [] => []
  | c :: s' => if py_isspace c then lstrip s' else s
  end.

Definition rstrip (s : pystr) : pystr := rev (lstrip (rev s)).

(** [s.strip()] *)
Definition strip (s : pystr) : pystr := rstrip (lstrip s).

(** [v.strip()]: only a [str] has the method. *)
Definition py_strip (v : pyval) : result pystr :=
  match v with
  | PyStr s => Ok (strip s)
  | _ => Raise AttributeError
  end.

(** [s.replace(old, new)] for one-character [old] and [new]. *)
Definition replace (old new : N) (s : pystr) : pystr :=
  map (fun c => if (c =? old)%N then new else c) s.

Definition space : N := 32.
Definition underscore : N := 95.

(** [v.replace(' ', '_')] *)
Definition py_replace_space (v : pyval) : result pystr :=
  match v with
  | PyStr s => Ok (replace space underscore s)
  | _ => Raise AttributeError
  end.

(** ** Effects *)

(** The two configuration fields of [self] the requests depend on
    ([__init__], lines 26-30); [library_id] is [None] or a string. *)
Record updater : Type := {
  abs_url : pystr;
  library_id : pyval
}.

(** The HTTP requests of the program, one constructor per call site:
    - [GetAuthors u None] is [session.get(f'{u}/api/authors')] and
      [GetAuthors u (Some l)] is
      [session.get(f'{u}/api/libraries/{l}/authors')] (line 38);
    - [GetWikipediaSearch n] is the search query for
      [f'{n} author writer'] (line 70);
    - [GetWikipediaPage t] is the page query for the title [t] (line 91);
    - [PatchAuthor u a d] is [session.patch(f'{u}/api/authors/{a}',
      json={'description': d})] (line 140);
    - [PostAuthorImage u a i] is [session.post(f'{u}/api/authors/{a}/image',
      json={'url': i})] (line 116). *)
Inductive request : Type :=
| GetAuthors (url : pystr) (library : option pyval)
| GetWikipediaSearch (author_name : pyval)
| GetWikipediaPage (page_title : pyval)
| PatchAuthor (url : pystr) (author_id : pyval) (description : pyval)
| PostAuthorImage (url : pystr) (author_id : pyval) (image_url : pyval).

(** A response object: its [status_code], and what [.json()] returns
    ([None] when the body does not decode, in which case [.json()] raises). *)
Record http_response : Type := {
  status_code : Z;
  body : option pyval
}.

(** What a request call does: it raises (connection refused, timeout, too
    many redirects, ...) or it returns a response. *)
Inductive reply : Type :=
| Failed
| Replied (r : http_response).

Inductive level : Type := INFO | WARNING | ERROR.

(** The log records of the program, one constructor per [logger] call, with
    the values its message interpolates. *)
Inductive logmsg : Type :=
| FoundAuthors (n : nat)
| ErrorFetchingAuthors (e : exn)
| NoWikipediaPage (author_name : pyval)
| FoundWikipediaData (author_name : pyval)
| ErrorSearchingWikipedia (author_name : pyval) (e : exn)
| UploadingImage (image_url : pyval)
| ImageUploadFailed (status : Z)
| UploadedImage (author_id : pyval)
| ErrorUploadingImage (author_id : pyval) (e : exn)
| UpdatedDescription (author_id : pyval)
| ErrorUpdatingAuthor (author_id : pyval) (e : exn)
| NoAuthorsFound
| Skipping (author_name : pyval)
| Processing (author_name : pyval)
| DryRunWouldUpdate (author_name : pyval)
| DryRunDescription (preview : pystr)
| DryRunImage (image_url : pyval)
| ProcessingComplete
| AuthorsUpdated (n : nat)
| AuthorsSkipped (n : nat).

Inductive event : Type :=
| EvRequest (r : request)
| EvLog (l : level) (m : logmsg)
| EvSleep (delay : float).

Definition trace := list event.

(** The remote services: the reply to a request, given everything that
    happened before it. *)
Definition World := trace -> request -> reply.

(** A computation extends the trace and returns or raises. *)
Definition M (A : Type) : Type := trace -> trace * result A.

Definition ret {A} (a : A) : M A := fun t => (t, Ok a).

Definition raise {A} (e : exn) : M A := fun t => (t, Raise e).

Definition bind {A B} (m : M A) (k : A -> M B) : M B :=
  fun t => match m t with
           | (t', Ok a) => k a t'
           | (t', Raise e) => (t', Raise e)
           end.

(** [try: m  except Exception as e: h e] *)
Definition try_except {A} (m : M A) (h : exn -> M A) : M A :=
  fun t => match m t with
           | (t', Ok a) => (t', Ok a)
           | (t', Raise e) => h e t'
           end.

(** A pure operation that may raise. *)
Definition pure {A} (r : result A) : M A := fun t => (t, r).

Definition emit (e : event) : M unit := fun t => (t ++ [e], Ok tt).

Declare Scope py_scope.
Delimit Scope py_scope with py.
Notation "x <- m ;; k" := (bind m (fun x => k))
  (at level 100, m at next level, right associativity) : py_scope.
Notation "m ;; k" := (bind m (fun _ => k))
  (at level 100, right associativity) : py_scope.
Open Scope py_scope.

Definition log (l : level) (m : logmsg) : M unit := emit (EvLog l m).

(** What [time.sleep(delay)] raises instead of sleeping (CPython): it
    refuses a NaN, converts the delay to nanoseconds, refuses a number of
    nanoseconds outside the 64-bit range, and refuses a negative one. *)
Definition sleep_error (delay : float) : option exn :=
  if negb (PrimFloat.eqb delay delay) then Some ValueError
  else
    let ns := (delay * 1e9)%float in
    if negb (PrimFloat.leb (-9223372036854775808)%float ns
             && PrimFloat.ltb ns 9223372036854775808%float)
    then Some OverflowError
    else if PrimFloat.ltb ns 0%float then Some ValueError
    else None.

(** [time.sleep(delay)]: the event is the call, which returns after the
    delay or raises at once. *)
Definition sleep (delay : float) : M unit :=
  emit (EvSleep delay) ;;
  match sleep_error delay with
  | Some e => raise e
  | None => ret tt
  end.

(** [response.raise_for_status()]: raises on a 4xx or 5xx status. *)
Definition raise_for_status (r : http_response) : M unit :=
  if ((400 <=? status_code r) && (status_code r <? 600))%Z
  then raise (HTTPError (status_code r))
  else ret tt.

(** [response.json()] *)
Definition json (r : http_response) : M pyval :=
  match body r with
  | Some v => ret v
  | None => raise JSONDecodeError
  end.

(** ** The program *)

(** The dictionary [search_wikipedia] returns (lines 97-101), with its
    three keys as fields. *)
Record wiki_data : Type := {
  description : pystr;
  image_url : pyval;
  source : pystr
}.

(** The counters [updated_count] and [skipped_count] of [process_authors]. *)
Record run_summary : Type := {
  updated : nat;
  skipped : nat
}.

Definition wiki_prefix : pystr := lit "https://en.wikipedia.org/wiki/".

Section Updater.

Variable world : World.
Variable self : updater.

(** [self.session.get], [self.session.patch], [self.session.post] and
    [requests.get]. *)
Definition send (r : request) : M http_response :=
  fun t => match world t r with
           | Failed => (t ++ [EvRequest r], Raise RequestException)
           | Replied resp => (t ++ [EvRequest r], Ok resp)
           end.

(** Lines 32-45. *)
Definition get_all_authors : M pyval :=
  try_except
    (response <- send (GetAuthors (abs_url self)
                         (if truthy (library_id self)
                          then Some (library_id self) else None)) ;;
     raise_for_status response ;;
     data <- json response ;;
     authors <- pure (py_get data (lit "authors") (PyList [])) ;;
     n <- pure (py_len authors) ;;
     log INFO (FoundAuthors n) ;;
     ret authors)
    (fun e => log ERROR (ErrorFetchingAuthors e) ;; ret (PyList [])).

(** Lines 47-51. *)
Definition needs_update (author : pyval) : M bool :=
  d <- pure (py_get author (lit "description") PyNone) ;;
  let missing_description := negb (truthy d) in
  i <- pure (py_get author (lit "imagePath") PyNone) ;;
  let missing_image := negb (truthy i) in
  ret (missing_description || missing_image).

(** Lines 53-108. *)
Definition search_wikipedia (author_name : pyval) : M (option wiki_data) :=
  try_except
    (search_response <- send (GetWikipediaSearch author_name) ;;
     search_data <- json search_response ;;
     query <- pure (py_get search_data (lit "query") (PyDict [])) ;;
     hits <- pure (py_get query (lit "search") PyNone) ;;
     if negb (truthy hits) then
       log WARNING (NoWikipediaPage author_name) ;;
       ret None
     else
       q <- pure (py_getitem search_data (lit "query")) ;;
       s <- pure (py_getitem q (lit "search")) ;;
       top <- pure (py_getitem0 s) ;;
       page_title <- pure (py_getitem top (lit "title")) ;;
       page_response <- send (GetWikipediaPage page_title) ;;
       page_data <- json page_response ;;
       query' <- pure (py_get page_data (lit "query") (PyDict [])) ;;
       pages <- pure (py_get query' (lit "pages") (PyDict [])) ;;
       page_info <- pure (py_first_value pages) ;;
       extract <- pure (py_get page_info (lit "extract") (PyStr [])) ;;
       description <- pure (py_strip extract) ;;
       original <- pure (py_get page_info (lit "original") (PyDict [])) ;;
       image_url <- pure (py_get original (lit "source") PyNone) ;;
       title <- pure (py_replace_space page_title) ;;
       let result := {| description := description;
                        image_url := image_url;
                        source := wiki_prefix ++ title |} in
       log INFO (FoundWikipediaData author_name) ;;
       ret (Some result))
    (fun e => log ERROR (ErrorSearchingWikipedia author_name e) ;; ret None).

(** Lines 110-130. The error record of line 122 also carries the response
    text, which the model leaves out. *)
Definition upload_image_url (author_id image_url : pyval) : M bool :=
  try_except
    (log INFO (UploadingImage image_url) ;;
     upload_response <- send (PostAuthorImage (abs_url self) author_id image_url) ;;
     (if negb (status_code upload_response =? 200)%Z then
        log ERROR (ImageUploadFailed (status_code upload_response)) ;;
        raise_for_status upload_response
      else ret tt) ;;
     log INFO (UploadedImage author_id) ;;
     ret true)
    (fun e => log ERROR (ErrorUploadingImage author_id e) ;; ret false).

(** The description update of [update_author] (lines 139-145); the source
    has it inline. It raises when the request does. *)
Definition update_description (author_id description : pyval) : M unit :=
  response <- send (PatchAuthor (abs_url self) author_id description) ;;
  raise_for_status response ;;
  log INFO (UpdatedDescription author_id).

(** Lines 132-156. *)
Definition update_author (author_id description image_url : pyval) : M bool :=
  try_except
    (let success := true in
     (if truthy description then update_description author_id description
      else ret tt) ;;
     success <- (if truthy image_url then
                   image_success <- upload_image_url author_id image_url ;;
                   ret (success && image_success)
                 else ret success) ;;
     ret success)
    (fun e => log ERROR (ErrorUpdatingAuthor author_id e) ;; ret false).

(** The body of the [for] loop of [process_authors] (lines 176-205) for one
    [author], from the counters before it to the counters after it. *)
Definition process_author (dry_run : bool) (delay : float)
    (author : pyval) (c : run_summary) : M run_summary :=
  author_name <- pure (py_get author (lit "name") (PyStr (lit "Unknown"))) ;;
  author_id <- pure (py_get author (lit "id") PyNone) ;;
  needed <- needs_update author ;;
  if negb needed then
    log INFO (Skipping author_name) ;;
    ret {| updated := updated c; skipped := skipped c + 1 |}
  else
    log INFO (Processing author_name) ;;
    wiki <- search_wikipedia author_name ;;
    c' <- match wiki with
          | Some w =>
              if dry_run then
                log INFO (DryRunWouldUpdate author_name) ;;
                (if truthy (PyStr (description w))
                 then log INFO (DryRunDescription (firstn 100 (description w)))
                 else ret tt) ;;
                (if truthy (image_url w)
                 then log INFO (DryRunImage (image_url w))
                 else ret tt) ;;
                ret c
              else
                d <- pure (py_get author (lit "description") PyNone) ;;
                i <- pure (py_get author (lit "imagePath") PyNone) ;;
                success <- update_author author_id
                             (if negb (truthy d) then PyStr (description w) else PyNone)
                             (if negb (truthy i) then image_url w else PyNone) ;;
                if success
                then ret {| updated := updated c + 1; skipped := skipped c |}
                else ret c
          | None => ret c
          end ;;
    sleep delay ;;
    ret c'.

(** The [for] loop of [process_authors]. *)
Fixpoint for_authors (dry_run : bool) (delay : float)
    (authors : list pyval) (c : run_summary) : M run_summary :=
  match authors with
  | [] => ret c
  | author :: rest =>
      c' <- process_author dry_run delay author c ;;
      for_authors dry_run delay rest c'
  end.

(** Lines 158-209. The function returns nothing; the model returns the final
    values of its two counters. On the early return of line 170 the counters
    are not bound yet and nothing was counted: the model returns zeros. *)
Definition process_authors (dry_run : bool) (delay : float) : M run_summary :=
  authors <- get_all_authors ;;
  if negb (truthy authors) then
    log ERROR NoAuthorsFound ;;
    ret {| updated := 0; skipped := 0 |}
  else
    items <- pure (py_iter authors) ;;
    c <- for_authors dry_run delay items {| updated := 0; skipped := 0 |} ;;
    log INFO ProcessingComplete ;;
    log INFO (AuthorsUpdated (updated c)) ;;
    log INFO (AuthorsSkipped (skipped c)) ;;
    ret c.

End Updater.

(** ** The vocabulary of the statements *)

(** *** Traces and outcomes *)

(** The events [m] appends to the trace [t]. *)
Definition events_of {A} (m : M A) (t : trace) : trace :=
  skipn (List.length t) (fst (m t)).

(** The outcome of a computation that ends with [time.sleep(delay)] and
    would return [a]. *)
Definition after_sleep {A} (delay : float) (a : A) : result A :=
  match sleep_error delay with
  | Some e => Raise e
  | None => Ok a
  end.

(** [emits P m]: [m] only appends to the trace, and every event it appends
    satisfies [P]. *)
Definition emits {A} (P : event -> Prop) (m : M A) : Prop :=
  forall t, exists new, fst (m t) = t ++ new /\ Forall P new.

(** [total m]: [m] never raises. *)
Definition total {A} (m : M A) : Prop :=
  forall t, exists a, snd (m t) = Ok a.

(** [returns Q m]: every value [m] returns satisfies [Q]. *)
Definition returns {A} (Q : A -> Prop) (m : M A) : Prop :=
  forall t a, snd (m t) = Ok a -> Q a.

Definition is_write (r : request) : bool :=
  match r with
  | PatchAuthor _ _ _ | PostAuthorImage _ _ _ => true
  | _ => false
  end.

(** A request that is a write to the library server. *)
Definition write_event (e : event) : bool :=
  match e with
  | EvRequest r => is_write r
  | _ => false
  end.

Definition is_lookup (r : request) : bool :=
  match r with
  | GetWikipediaSearch _ | GetWikipediaPage _ => true
  | _ => false
  end.

(** A request to the encyclopedia. *)
Definition lookup_event (e : event) : bool :=
  match e with
  | EvRequest r => is_lookup r
  | _ => false
  end.

Definition sleep_event (e : event) : bool :=
  match e with
  | EvSleep _ => true
  | _ => false
  end.

(** The number of write requests in a trace. *)
Definition write_calls (t : trace) : nat := List.length (filter write_event t).

Definition patch_event (e : event) : bool :=
  match e with
  | EvRequest (PatchAuthor _ _ _) => true
  | _ => false
  end.

Definition image_post_event (e : event) : bool :=
  match e with
  | EvRequest (PostAuthorImage _ _ _) => true
  | _ => false
  end.

Definition count (p : event -> bool) (t : trace) : nat := List.length (filter p t).

(** *** The library client *)

Definition succeeded {A} (r : result A) : bool :=
  match r with
  | Ok _ => true
  | Raise _ => false
  end.

(** The boolean a computation returns; [false] when it raises. *)
Definition value_of (r : result bool) : bool :=
  match r with
  | Ok b => b
  | Raise _ => false
  end.

(** The conjunction of the results of the sub-operations that were invoked;
    [None] stands for a sub-operation that was not invoked. *)
Definition and_invoked (results : list (option bool)) : bool :=
  forallb (fun o => match o with Some b => b | None => true end) results.

(** [raise_for_status] raises on this status. *)
Definition error_status (s : Z) : bool := ((400 <=? s) && (s <? 600))%Z.

(** A status outside 2xx, a failure in the sense of the specification. *)
Definition non_2xx (s : Z) : bool := negb ((200 <=? s) && (s <? 300))%Z.

Definition invoked (o : option bool) : nat :=
  match o with
  | Some _ => 1
  | None => 0
  end.

Section ClientVocabulary.

Variable world : World.
Variable self : updater.

(** The result of the description update when [update_author] invokes it. *)
Definition description_result (author_id dsc : pyval) (t : trace) : option bool :=
  if truthy dsc
  then Some (succeeded (snd (update_description world self author_id dsc t)))
  else None.

(** The trace when [update_author] reaches its image step. *)
Definition after_description (author_id dsc : pyval) (t : trace) : trace :=
  if truthy dsc
  then fst (update_description world self author_id dsc t)
  else t.

(** The result of the image upload when [update_author] invokes it: the
    image URL is non-empty and the description step did not raise. *)
Definition image_result (author_id dsc image : pyval) (t : trace) : option bool :=
  if truthy image && and_invoked [description_result author_id dsc t]
  then Some (value_of (snd (upload_image_url world self author_id image
                              (after_description author_id dsc t))))
  else None.

(** The description update fails in the sense of the code: the request
    raises, or its status is one [raise_for_status] raises on. *)
Definition patch_raises (author_id dsc : pyval) (t : trace) : bool :=
  match world t (PatchAuthor (abs_url self) author_id dsc) with
  | Failed => true
  | Replied r => error_status (status_code r)
  end.

(** The description update fails in the sense of the specification: a
    transport error or a status outside 2xx. *)
Definition patch_fails (author_id dsc : pyval) (t : trace) : bool :=
  match world t (PatchAuthor (abs_url self) author_id dsc) with
  | Failed => true
  | Replied r => non_2xx (status_code r)
  end.

(** The requests [update_author] sends: the PATCH carries its description
    argument and is sent only if that is non-empty, the image upload carries
    its image argument and is sent only if that is non-empty. *)
Definition update_request (author_id dsc image : pyval) (e : event) : Prop :=
  match e with
  | EvRequest r =>
      (r = PatchAuthor (abs_url self) author_id dsc /\ truthy dsc = true) \/
      (r = PostAuthorImage (abs_url self) author_id image /\ truthy image = true)
  | EvLog _ _ => True
  | EvSleep _ => False
  end.

End ClientVocabulary.

(** *** The synchronisation loop *)

(** The four entries of an author record the loop reads. *)
Definition name_of (d : list (pystr * pyval)) : pyval :=
  dict_get d (lit "name") (PyStr (lit "Unknown")).
Definition id_of (d : list (pystr * pyval)) : pyval :=
  dict_get d (lit "id") PyNone.
Definition description_of (d : list (pystr * pyval)) : pyval :=
  dict_get d (lit "description") PyNone.
Definition image_path_of (d : list (pystr * pyval)) : pyval :=
  dict_get d (lit "imagePath") PyNone.

(** The record has a non-empty description and a non-empty image path. *)
Definition complete (d : list (pystr * pyval)) : bool :=
  truthy (description_of d) && truthy (image_path_of d).

Definition count_skipped (c : run_summary) : run_summary :=
  {| updated := updated c; skipped := skipped c + 1 |}.

Definition count_updated (c : run_summary) : run_summary :=
  {| updated := updated c + 1; skipped := skipped c |}.

(** The arguments the live branch passes to [update_author] (lines 198-199). *)
Definition description_argument (d : list (pystr * pyval)) (w : wiki_data) : pyval :=
  if negb (truthy (description_of d)) then PyStr (description w) else PyNone.
Definition image_argument (d : list (pystr * pyval)) (w : wiki_data) : pyval :=
  if negb (truthy (image_path_of d)) then image_url w else PyNone.



(** The log records of the dry-run branch (lines 190-194). *)
Definition dry_run_logs (author_name : pyval) (w : wiki_data) : trace :=
  [EvLog INFO (DryRunWouldUpdate author_name)]
  ++ (if truthy (PyStr (description w))
      then [EvLog INFO (DryRunDescription (firstn 100 (description w)))]
      else [])
  ++ (if truthy (image_url w)
      then [EvLog INFO (DryRunImage (image_url w))]
      else []).

(** A write request that merges into the record [d]: it fills a field
    that is empty on [d], for the author [d] describes, with the value the
    lookup [wiki] fetched for that field. Other events are unconstrained. *)
Definition merge_write (d : list (pystr * pyval)) (wiki : option wiki_data)
    (e : event) : Prop :=
  match e with
  | EvRequest (PatchAuthor _ a x) =>
      truthy (description_of d) = false /\ a = id_of d /\
      exists w, wiki = Some w /\ x = PyStr (description w)
  | EvRequest (PostAuthorImage _ a x) =>
      truthy (image_path_of d) = false /\ a = id_of d /\
      exists w, wiki = Some w /\ x = image_url w
  | _ => True
  end.

(** *** The encyclopedia client *)

(** [d] is [s] without its leading and trailing whitespace. *)
Definition trimmed (s d : pystr) : Prop :=
  exists pre suf : pystr,
    s = pre ++ d ++ suf /\
    Forall (fun c => py_isspace c = true) pre /\
    Forall (fun c => py_isspace c = true) suf /\
    match d with [] => True | c :: _ => py_isspace c = false end /\
    match rev d with [] => True | c :: _ => py_isspace c = false end.

Definition rbind {A B} (r : result A) (k : A -> result B) : result B :=
  match r with
  | Ok a => k a
  | Raise e => Raise e
  end.

Definition to_option {A} (r : result A) : option A :=
  match r with
  | Ok a => Some a
  | Raise _ => None
  end.

(** The title of the top search result in the reply to the search request:
    [search_data['query']['search'][0]['title']]. *)
Definition top_title (r : reply) : option pyval :=
  match r with
  | Replied {| body := Some search_data |} =>
      to_option
        (rbind (py_getitem search_data (lit "query")) (fun q =>
         rbind (py_getitem q (lit "search")) (fun s =>
         rbind (py_getitem0 s) (fun top =>
         py_getitem top (lit "title")))))
  | _ => None
  end.

(** The page in the reply to the page request: the first value of
    [page_data.get('query', {}).get('pages', {})]. *)
Definition first_page (r : reply) : option pyval :=
  match r with
  | Replied {| body := Some page_data |} =>
      to_option
        (rbind (py_get page_data (lit "query") (PyDict [])) (fun q =>
         rbind (py_get q (lit "pages") (PyDict [])) (fun pages =>
         py_first_value pages)))
  | _ => None
  end.

(** ** The constructor and the remaining vocabulary *)

(** *** [__init__] *)

Definition slash : N := 47.

Fixpoint lstrip_char (c : N) (s : pystr) : pystr :=
  match s with
  | [] => []
  | x :: s' => if (x =? c)%N then lstrip_char c s' else s
  end.

(** [s.rstrip(c)] for a one-character [c]. *)
Definition rstrip_char (c : N) (s : pystr) : pystr :=
  rev (lstrip_char c (rev s)).

(** The attributes [__init__] sets (lines 26-28): the two the requests
    depend on, and the authorization header. The [requests.Session] of lines
    29-30 adds its own default headers to that one; the model leaves the
    session out. *)
Record instance : Type := {
  config : updater;
  headers : list (pystr * pystr)
}.

(** Lines 17-28, for string arguments [abs_url] and [api_token]. *)
Definition init (abs_url api_token : pystr) (library_id : pyval) : instance :=
  {| config := {| abs_url := rstrip_char slash abs_url;
                  library_id := library_id |};
     headers := [(lit "Authorization", lit "Bearer " ++ api_token)] |}.

(** *** Requests and log records *)

(** The request of [get_all_authors] (lines 35-38). *)
Definition authors_request (self : updater) : request :=
  GetAuthors (abs_url self)
    (if truthy (library_id self) then Some (library_id self) else None).

(** The requests of a trace, in order. *)
Fixpoint requests_of (t : trace) : list request :=
  match t with
  | [] => []
  | EvRequest r :: t' => r :: requests_of t'
  | _ :: t' => requests_of t'
  end.

(** The log records of a trace, in order. *)
Fixpoint logs_of (t : trace) : list (level * logmsg) :=
  match t with
  | [] => []
  | EvLog l m :: t' => (l, m) :: logs_of t'
  | _ :: t' => logs_of t'
  end.





(** A dry-run preview of a description has at most 100 characters. *)
Definition preview_bounded (e : event) : Prop :=
  match e with
  | EvLog _ (DryRunDescription p) => List.length p <= 100
  | _ => True
  end.

(** An author the loop can work on: a [dict]. *)
Definition is_record (v : pyval) : bool :=
  match v with
  | PyDict _ => true
  | _ => false
  end.

(** *** The two steps of a lookup, on the replies *)

(** What a request call and [.json()] on its response give. *)
Definition decoded (r : reply) : result pyval :=
  match r with
  | Failed => Raise RequestException
  | Replied resp =>
      match body resp with
      | Some v => Ok v
      | None => Raise JSONDecodeError
      end
  end.

(** Lines 73-77 on the decoded search reply: [None] when the search has no
    result, else the title of the top result. *)
Definition search_title (search_data : pyval) : result (option pyval) :=
  rbind (py_get search_data (lit "query") (PyDict [])) (fun query =>
  rbind (py_get query (lit "search") PyNone) (fun hits =>
  if negb (truthy hits) then Ok None
  else
    rbind (py_getitem search_data (lit "query")) (fun q =>
    rbind (py_getitem q (lit "search")) (fun s =>
    rbind (py_getitem0 s) (fun top =>
    rbind (py_getitem top (lit "title")) (fun page_title =>
    Ok (Some page_title))))))).

(** Lines 94-101 on the decoded page reply. *)
Definition build_result (page_title page_data : pyval) : result wiki_data :=
  rbind (py_get page_data (lit "query") (PyDict [])) (fun query =>
  rbind (py_get query (lit "pages") (PyDict [])) (fun pages =>
  rbind (py_first_value pages) (fun page_info =>
  rbind (py_get page_info (lit "extract") (PyStr [])) (fun extract =>
  rbind (py_strip extract) (fun description =>
  rbind (py_get page_info (lit "original") (PyDict [])) (fun original =>
  rbind (py_get original (lit "source") PyNone) (fun image_url =>
  rbind (py_replace_space page_title) (fun title =>
  Ok {| description := description;
        image_url := image_url;
        source := wiki_prefix ++ title |})))))))).

(** *** Lists of author records *)

(** The records of a list that miss a description or an image. *)
Definition incomplete (ds : list (list (pystr * pyval))) : nat :=
  List.length (filter (fun d => negb (complete d)) ds).



(** *** The author list, on the reply *)

(** Lines 38-41 on the reply to the author-list request: the value of
    [response.json().get('authors', [])] when the request, the status check,
    the decoding and [len] all succeed, the exception otherwise. *)
Definition listed (r : reply) : result pyval :=
  match r with
  | Failed => Raise RequestException
  | Replied resp =>
      if error_status (status_code resp)
      then Raise (HTTPError (status_code resp))
      else
        rbind (decoded r) (fun data =>
        rbind (py_get data (lit "authors") (PyList [])) (fun authors =>
        rbind (py_len authors) (fun _ => Ok authors)))
  end.

(** ** Scenarios *)

Module Scenario.

Definition ok_json (v : pyval) : reply :=
  Replied {| status_code := 200; body := Some v |}.

Definition status (s : Z) : reply :=
  Replied {| status_code := s; body := None |}.

(** Services whose replies depend on the kind of request only. *)
Definition service (authors : pyval) (search page patch post : reply) : World :=
  fun _ r =>
    match r with
    | GetAuthors _ _ => ok_json (PyDict [(lit "authors", authors)])
    | GetWikipediaSearch _ => search
    | GetWikipediaPage _ => page
    | PatchAuthor _ _ _ => patch
    | PostAuthorImage _ _ _ => post
    end.

Definition search_reply (hits : list pyval) : reply :=
  ok_json (PyDict [(lit "query", PyDict [(lit "search", PyList hits)])]).

Definition hit (title : string) : pyval :=
  PyDict [(lit "title", PyStr (lit title))].

Definition page_reply (page_info : list (pystr * pyval)) : reply :=
  ok_json (PyDict [(lit "query",
                    PyDict [(lit "pages",
                             PyDict [(lit "736", PyDict page_info)])])]).

Definition self : updater :=
  {| abs_url := lit "http://localhost:13378"; library_id := PyNone |}.

Definition no_counts : run_summary := {| updated := 0; skipped := 0 |}.

(** The author of the specification's end-to-end scenario: no description,
    an image. *)
Definition jane : list (pystr * pyval) :=
  [(lit "id", PyStr (lit "a1"));
   (lit "name", PyStr (lit "Jane Doe"));
   (lit "description", PyNone);
   (lit "imagePath", PyStr (lit "/img.jpg"))].

(** An author with a description and no image. *)
Definition john : list (pystr * pyval) :=
  [(lit "id", PyStr (lit "a2"));
   (lit "name", PyStr (lit "John Roe"));
   (lit "description", PyStr (lit "John Roe is a poet."));
   (lit "imagePath", PyNone)].

Definition jane_page : list (pystr * pyval) :=
  [(lit "title", PyStr (lit "Jane Doe"));
   (lit "extract", PyStr (lit " Jane Doe is a writer... "));
   (lit "original", PyDict [(lit "source", PyStr (lit "http://x/y.jpg"))])].

(** A page with an extract and no image. *)
Definition john_page : list (pystr * pyval) :=
  [(lit "title", PyStr (lit "John Roe"));
   (lit "extract", PyStr (lit "John Roe is a poet and essayist."))].

Definition jane_world : World :=
  service (PyList [PyDict jane]) (search_reply [hit "Jane Doe"])
          (page_reply jane_page) (status 200) (status 200).

Definition john_world : World :=
  service (PyList [PyDict john]) (search_reply [hit "John Roe"])
          (page_reply john_page) (status 200) (status 200).


Definition empty_world : World :=
  service (PyList []) (search_reply [hit "Jane Doe"])
          (page_reply jane_page) (status 200) (status 200).

(** The library server answers 304 to the PATCH and to the image upload. *)
Definition not_modified_world : World :=
  service (PyList [PyDict jane]) (search_reply [hit "Jane Doe"])
          (page_reply jane_page) (status 304) (status 304).

(** The library server refuses the PATCH. *)
Definition forbidden_world : World :=
  service (PyList [PyDict jane]) (search_reply [hit "Jane Doe"])
          (page_reply jane_page) (status 403) (status 200).

Definition jane_result : wiki_data :=
  {| description := lit "Jane Doe is a writer...";
     image_url := PyStr (lit "http://x/y.jpg");
     source := lit "https://en.wikipedia.org/wiki/Jane_Doe" |}.

Definition john_result : wiki_data :=
  {| description := lit "John Roe is a poet and essayist.";
     image_url := PyNone;
     source := lit "https://en.wikipedia.org/wiki/John_Roe" |}.

(** The second scenario of the specification: two authors, the second
    complete; one lookup, one skip. *)
Definition complete_author : list (pystr * pyval) :=
  [(lit "id", PyStr (lit "a3"));
   (lit "name", PyStr (lit "Ann Poe"));
   (lit "description", PyStr (lit "Ann Poe is a novelist."));
   (lit "imagePath", PyStr (lit "/ann.jpg"))].

Definition two_authors_world : World :=
  service (PyList [PyDict jane; PyDict complete_author])
          (search_reply [hit "Jane Doe"])
          (page_reply jane_page) (status 200) (status 200).

End Scenario.

(** Services that fail. *)
Module Faults.

(** Every request raises. *)
Definition unreachable : World := fun _ _ => Failed.

(** Every request is answered with the status [s] and no body. *)
Definition answering (s : Z) : World := fun _ _ => Scenario.status s.

(** The library server accepts the PATCH and answers 500 to the upload. *)
Definition upload_fails : World :=
  Scenario.service (PyList [PyDict Scenario.jane])
    (Scenario.search_reply [Scenario.hit "Jane Doe"])
    (Scenario.page_reply Scenario.jane_page)
    (Scenario.status 200) (Scenario.status 500).

(** The server lists something that is not an author record. *)
Definition odd_list : World :=
  Scenario.service (PyList [PyDict Scenario.complete_author; PyStr (lit "a4");
                            PyDict Scenario.jane])
    (Scenario.search_reply [Scenario.hit "Jane Doe"])
    (Scenario.page_reply Scenario.jane_page)
    (Scenario.status 200) (Scenario.status 200).

End Faults.

(** ** Properties of the string operations *)

Example strip_example :
  strip (lit "  Jane Doe is a writer. ") = lit "Jane Doe is a writer.".
Proof. reflexivity. Qed.

Example replace_example :
  replace space underscore (lit "Jane Doe") = lit "Jane_Doe".
Proof. reflexivity. Qed.

Lemma lstrip_spec (s : pystr) :
  exists pre : pystr,
    s = pre ++ lstrip s /\
    Forall (fun c => py_isspace c = true) pre /\
    match lstrip s with [] => True | c :: _ => py_isspace c = false end.
Proof.
  induction s as [| c s IH]; simpl.
  - exists []. auto.
  - destruct (py_isspace c) eqn:E.
    + destruct IH as (pre & E1 & F & H).
      exists (c :: pre). simpl. rewrite <- E1. auto.
    + exists []. auto.
Qed.

Lemma rstrip_spec (s : pystr) :
  exists suf : pystr,
    s = rstrip s ++ suf /\
    Forall (fun c => py_isspace c = true) suf /\
    match rev (rstrip s) with [] => True | c :: _ => py_isspace c = false end.
Proof.
  unfold rstrip. destruct (lstrip_spec (rev s)) as (pre & E & F & H).
  exists (rev pre). rewrite rev_involutive. repeat split.
  - rewrite <- rev_app_distr, <- E, rev_involutive. reflexivity.
  - apply Forall_rev. exact F.
  - exact H.
Qed.

Lemma strip_trimmed (s : pystr) : trimmed s (strip s).
Proof.
  unfold strip.
  destruct (lstrip_spec s) as (pre & E1 & F1 & H1).
  destruct (rstrip_spec (lstrip s)) as (suf & E2 & F2 & H2).
  exists pre, suf. repeat split; auto.
  - rewrite <- E2. exact E1.
  - rewrite E2 in H1. destruct (rstrip (lstrip s)); simpl in *; auto.
Qed.

Lemma replace_pointwise (old new : N) (s : pystr) :
  Forall2 (fun a b => b = if (a =? old)%N then new else a) s (replace old new s).
Proof. induction s; simpl; constructor; auto. Qed.

(** ** Reasoning about computations *)

Lemma events_of_app {A} (m : M A) t new :
  fst (m t) = t ++ new -> events_of m t = new.
Proof.
  intros H. unfold events_of. rewrite H.
  rewrite skipn_app, skipn_all, Nat.sub_diag. reflexivity.
Qed.

Section Rules.

Context {A B : Type}.
Variable P : event -> Prop.

Lemma emits_ret (a : A) : emits P (ret a).
Proof. intros t. exists []. simpl. rewrite app_nil_r. auto. Qed.

Lemma emits_raise (e : exn) : emits P (@raise A e).
Proof. intros t. exists []. simpl. rewrite app_nil_r. auto. Qed.

Lemma emits_pure (r : result A) : emits P (pure r).
Proof. intros t. exists []. simpl. rewrite app_nil_r. auto. Qed.

Lemma emits_emit (e : event) : P e -> emits P (emit e).
Proof. intros H t. exists [e]. simpl. auto. Qed.

Lemma emits_bind (m : M A) (k : A -> M B) :
  emits P m -> (forall a, emits P (k a)) -> emits P (bind m k).
Proof.
  intros Hm Hk t. unfold bind.
  destruct (Hm t) as (n1 & E1 & F1).
  destruct (m t) as [t1 [a | e]]; simpl in E1; subst t1.
  - destruct (Hk a (t ++ n1)) as (n2 & E2 & F2).
    exists (n1 ++ n2). rewrite E2, app_assoc. split; auto.
    apply Forall_app; auto.
  - exists n1. auto.
Qed.

Lemma emits_try (m : M A) (h : exn -> M A) :
  emits P m -> (forall e, emits P (h e)) -> emits P (try_except m h).
Proof.
  intros Hm Hh t. unfold try_except.
  destruct (Hm t) as (n1 & E1 & F1).
  destruct (m t) as [t1 [a | e]]; simpl in E1; subst t1.
  - exists n1. auto.
  - destruct (Hh e (t ++ n1)) as (n2 & E2 & F2).
    exists (n1 ++ n2). rewrite E2, app_assoc. split; auto.
    apply Forall_app; auto.
Qed.

Lemma emits_send (world : World) (r : request) :
  P (EvRequest r) -> emits P (send world r).
Proof.
  intros H t. exists [EvRequest r]. unfold send.
  destruct (world t r); simpl; auto.
Qed.

Lemma total_try (m : M A) (h : exn -> M A) :
  (forall e, total (h e)) -> total (try_except m h).
Proof.
  intros Hh t. unfold try_except.
  destruct (m t) as [t1 [a | e]]; simpl.
  - exists a. reflexivity.
  - apply Hh.
Qed.

Lemma total_ret (a : A) : total (ret a).
Proof. intros t. exists a. reflexivity. Qed.

Lemma total_bind (m : M A) (k : A -> M B) :
  total m -> (forall a, total (k a)) -> total (bind m k).
Proof.
  intros Hm Hk t. unfold bind.
  destruct (Hm t) as (a & E). destruct (m t) as [t1 r]. simpl in E. subst r.
  apply Hk.
Qed.

Lemma returns_ret (Q : A -> Prop) (a : A) : Q a -> returns Q (ret a).
Proof. intros H t a' E. simpl in E. congruence. Qed.

Lemma returns_bind (Q1 : A -> Prop) (Q : B -> Prop) (m : M A) (k : A -> M B) :
  returns Q1 m -> (forall a, Q1 a -> returns Q (k a)) -> returns Q (bind m k).
Proof.
  intros Hm Hk t b. unfold bind.
  specialize (Hm t). destruct (m t) as [t1 [a | e]]; simpl in *.
  - intros E. apply (Hk a (Hm a eq_refl) t1 b E).
  - discriminate.
Qed.

Lemma returns_any (m : M A) : returns (fun _ => True) m.
Proof. intros t a _. exact I. Qed.

End Rules.

Lemma emits_weaken {A} (P Q : event -> Prop) (m : M A) :
  (forall e, P e -> Q e) -> emits P m -> emits Q m.
Proof.
  intros H Hm t. destruct (Hm t) as (new & E & F).
  exists new. split; auto. eapply Forall_impl; eauto.
Qed.

Lemma total_emit (e : event) : total (emit e).
Proof. intros t. exists tt. reflexivity. Qed.

Lemma emits_sleep (P : event -> Prop) (delay : float) :
  P (EvSleep delay) -> emits P (sleep delay).
Proof.
  intros H. unfold sleep. apply emits_bind; [apply emits_emit; exact H |].
  intros _. destruct (sleep_error delay); [apply emits_raise | apply emits_ret].
Qed.

(** [time.sleep] appends the call and returns or raises. *)
Lemma sleep_eq (delay : float) (t : trace) :
  sleep delay t = (t ++ [EvSleep delay], after_sleep delay tt).
Proof.
  unfold sleep, after_sleep, bind, emit, raise, ret.
  destruct (sleep_error delay); reflexivity.
Qed.

(** Splits an [emits] goal along the structure of the computation. *)
Ltac emits_step :=
  match goal with
  | |- emits _ (bind _ _) => apply emits_bind; [| intros ?]
  | |- emits _ (try_except _ _) => apply emits_try; [| intros ?]
  | |- emits _ (ret _) => apply emits_ret
  | |- emits _ (raise _) => apply emits_raise
  | |- emits _ (pure _) => apply emits_pure
  | |- emits _ (log _ _) => apply emits_emit
  | |- emits _ (sleep _) => apply emits_sleep
  | |- emits _ (emit _) => apply emits_emit
  | |- emits _ (send _ _) => apply emits_send
  | |- emits _ (json ?r) => unfold json; destruct (body r)
  | |- emits _ (raise_for_status ?r) =>
      unfold raise_for_status;
      destruct ((400 <=? status_code r) && (status_code r <? 600))%Z
  | |- emits _ (if ?c then _ else _) => destruct c
  | |- emits _ (match ?x with _ => _ end) => destruct x
  end.

Ltac emits_auto := repeat emits_step; simpl; auto.

(** ** Which events each method can append *)

Section Frames.

Variable world : World.
Variable self : updater.

(** The lookup sends only encyclopedia requests, writes log records and
    does not sleep. *)
Lemma search_wikipedia_emits (author_name : pyval) :
  emits (fun e => write_event e = false /\ sleep_event e = false)
        (search_wikipedia world author_name).
Proof. unfold search_wikipedia. emits_auto. Qed.

Lemma search_wikipedia_total (author_name : pyval) :
  total (search_wikipedia world author_name).
Proof.
  unfold search_wikipedia. apply total_try. intros e.
  apply total_bind; [apply total_emit | intros; apply total_ret].
Qed.

Lemma upload_image_url_total (author_id image : pyval) :
  total (upload_image_url world self author_id image).
Proof.
  unfold upload_image_url. apply total_try. intros e.
  apply total_bind; [apply total_emit | intros; apply total_ret].
Qed.

Lemma update_author_total (author_id dsc image : pyval) :
  total (update_author world self author_id dsc image).
Proof.
  unfold update_author. apply total_try. intros e.
  apply total_bind; [apply total_emit | intros; apply total_ret].
Qed.

Lemma get_all_authors_total : total (get_all_authors world self).
Proof.
  unfold get_all_authors. apply total_try. intros e.
  apply total_bind; [apply total_emit | intros; apply total_ret].
Qed.

(** In dry-run mode the loop body sends no write request. *)
Lemma process_author_dry_emits (delay : float) (author : pyval) (c : run_summary) :
  emits (fun e => write_event e = false)
        (process_author world self true delay author c).
Proof.
  unfold process_author, needs_update.
  repeat (emits_step; simpl; auto).
  eapply emits_weaken; [| apply search_wikipedia_emits].
  simpl. tauto.
Qed.

Lemma for_authors_dry_emits (delay : float) (authors : list pyval) :
  forall c, emits (fun e => write_event e = false)
                  (for_authors world self true delay authors c).
Proof.
  induction authors as [| author rest IH]; intros c; simpl.
  - apply emits_ret.
  - apply emits_bind; [apply process_author_dry_emits | intros; apply IH].
Qed.

End Frames.

Lemma no_write_calls (new : trace) :
  Forall (fun e => write_event e = false) new -> write_calls new = 0.
Proof.
  unfold write_calls. induction 1 as [| e l He _ IH]; simpl.
  - reflexivity.
  - rewrite He. exact IH.
Qed.

(** Steps over a binding whose value does not matter. *)
Ltac returns_skip := eapply returns_bind; [apply returns_any | intros ? _].

Section DryRun.

Variable world : World.
Variable self : updater.
Variable delay : float.

Lemma process_author_dry_updated (author : pyval) (c : run_summary) :
  returns (fun c' => updated c' = updated c)
          (process_author world self true delay author c).
Proof.
  unfold process_author.
  do 3 returns_skip.
  match goal with |- returns _ (if ?b then _ else _) => destruct b end.
  - returns_skip. apply returns_ret. reflexivity.
  - do 2 returns_skip.
    eapply returns_bind with (Q1 := fun c' => updated c' = updated c).
    + match goal with |- returns _ (match ?w with _ => _ end) => destruct w end.
      * do 3 returns_skip. apply returns_ret. reflexivity.
      * apply returns_ret. reflexivity.
    + intros c' H. returns_skip. apply returns_ret. exact H.
Qed.

Lemma for_authors_dry_updated (authors : list pyval) :
  forall c, returns (fun c' => updated c' = updated c)
                    (for_authors world self true delay authors c).
Proof.
  induction authors as [| author rest IH]; intros c; simpl.
  - apply returns_ret. reflexivity.
  - eapply returns_bind; [apply process_author_dry_updated |].
    intros c1 H1 t c2 H2. rewrite <- H1. exact (IH c1 t c2 H2).
Qed.

Lemma process_authors_dry_emits :
  emits (fun e => write_event e = false) (process_authors world self true delay).
Proof.
  unfold process_authors.
  apply emits_bind.
  - unfold get_all_authors. emits_auto.
  - intros authors. destruct (negb (truthy authors)).
    + emits_auto.
    + apply emits_bind; [apply emits_pure | intros items].
      apply emits_bind; [apply for_authors_dry_emits | intros c].
      emits_auto.
Qed.

Lemma process_authors_dry_updated :
  returns (fun c => updated c = 0) (process_authors world self true delay).
Proof.
  unfold process_authors. returns_skip.
  match goal with |- returns _ (if ?b then _ else _) => destruct b end.
  - returns_skip. apply returns_ret. reflexivity.
  - returns_skip.
    eapply returns_bind; [apply for_authors_dry_updated |].
    simpl. intros c H. do 3 returns_skip. apply returns_ret. exact H.
Qed.

(** C2. In dry-run mode, whatever the library server and the encyclopedia
    answer (hence for every author list and every sequence of lookup
    outcomes), the run only appends events to the trace, none of them is a
    write request to the library server (no PATCH of a description, no image
    upload), and a run that completes reports an updated counter of zero. *)
Theorem dry_run_issues_no_write :
  forall t : trace,
  exists new : trace,
    fst (process_authors world self true delay t) = t ++ new /\
    Forall (fun e => write_event e = false) new /\
    write_calls new = 0 /\
    match snd (process_authors world self true delay t) with
    | Ok c => updated c = 0
    | Raise _ => True
    end.
Proof.
  intros t.
  destruct (process_authors_dry_emits t) as (new & E & F).
  exists new. repeat split; auto using no_write_calls.
  destruct (snd (process_authors world self true delay t)) as [c | e] eqn:R; auto.
  exact (process_authors_dry_updated t R).
Qed.

End DryRun.

(** ** The library client: [upload_image_url] and [update_author] *)

(** Unfolds the monad down to traces and results. *)
Ltac run :=
  unfold bind, try_except, ret, raise, pure, log, emit, send, json,
    raise_for_status in *;
  simpl in *.

(** Brings a trace to the form [t ++ new]. *)
Ltac flat := repeat rewrite <- app_assoc; simpl.

Section LibraryClient.

Variable world : World.
Variable self : updater.

(** What [upload_image_url] does, by the reply to its request. *)
Lemma upload_image_url_eq (author_id image : pyval) (t : trace) :
  let req := PostAuthorImage (abs_url self) author_id image in
  let sent := [EvLog INFO (UploadingImage image); EvRequest req] in
  upload_image_url world self author_id image t =
  match world (t ++ [EvLog INFO (UploadingImage image)]) req with
  | Failed =>
      (t ++ sent ++ [EvLog ERROR (ErrorUploadingImage author_id RequestException)],
       Ok false)
  | Replied r =>
      if (status_code r =? 200)%Z then
        (t ++ sent ++ [EvLog INFO (UploadedImage author_id)], Ok true)
      else if error_status (status_code r) then
        (t ++ sent ++ [EvLog ERROR (ImageUploadFailed (status_code r));
                       EvLog ERROR (ErrorUploadingImage author_id
                                      (HTTPError (status_code r)))],
         Ok false)
      else
        (t ++ sent ++ [EvLog ERROR (ImageUploadFailed (status_code r));
                       EvLog INFO (UploadedImage author_id)],
         Ok true)
  end.
Proof.
  unfold upload_image_url, error_status. run.
  destruct (world _ _) as [| r]; simpl.
  - flat. reflexivity.
  - destruct (status_code r =? 200)%Z; simpl.
    + flat. reflexivity.
    + destruct ((400 <=? status_code r) && (status_code r <? 600))%Z; simpl;
        flat; reflexivity.
Qed.

(** The upload reports failure exactly when the request raises or the
    status is one [raise_for_status] raises on (4xx, 5xx). *)
Lemma upload_image_url_result (author_id image : pyval) (t : trace) :
  snd (upload_image_url world self author_id image t) =
  Ok (match world (t ++ [EvLog INFO (UploadingImage image)])
              (PostAuthorImage (abs_url self) author_id image) with
      | Failed => false
      | Replied r => negb (error_status (status_code r))
      end).
Proof.
  rewrite upload_image_url_eq.
  destruct (world _ _) as [| r]; simpl; auto.
  destruct (status_code r =? 200)%Z eqn:E.
  - apply Z.eqb_eq in E. rewrite E. reflexivity.
  - destruct (error_status (status_code r)); reflexivity.
Qed.

(** A status outside 2xx on which [raise_for_status] does not raise (1xx,
    3xx) is reported as a success, after the failure was logged. *)
Lemma upload_image_url_true_outside_2xx (author_id image : pyval) (t : trace)
    (r : http_response) :
  world (t ++ [EvLog INFO (UploadingImage image)])
        (PostAuthorImage (abs_url self) author_id image) = Replied r ->
  non_2xx (status_code r) = true ->
  error_status (status_code r) = false ->
  upload_image_url world self author_id image t =
    (t ++ [EvLog INFO (UploadingImage image);
           EvRequest (PostAuthorImage (abs_url self) author_id image);
           EvLog ERROR (ImageUploadFailed (status_code r));
           EvLog INFO (UploadedImage author_id)],
     Ok true).
Proof.
  intros W H2 He. rewrite upload_image_url_eq, W, He.
  destruct (status_code r =? 200)%Z eqn:E; [| reflexivity].
  apply Z.eqb_eq in E. rewrite E in H2. discriminate H2.
Qed.

(** What [update_description] does, by the reply to its request. *)
Lemma update_description_eq (author_id dsc : pyval) (t : trace) :
  let req := PatchAuthor (abs_url self) author_id dsc in
  update_description world self author_id dsc t =
  match world t req with
  | Failed => (t ++ [EvRequest req], Raise RequestException)
  | Replied r =>
      if error_status (status_code r)
      then (t ++ [EvRequest req], Raise (HTTPError (status_code r)))
      else (t ++ [EvRequest req; EvLog INFO (UpdatedDescription author_id)], Ok tt)
  end.
Proof.
  unfold update_description, error_status. run.
  destruct (world _ _) as [| r]; simpl; auto.
  destruct ((400 <=? status_code r) && (status_code r <? 600))%Z; simpl; auto.
  flat. reflexivity.
Qed.

Lemma upload_image_url_ok (author_id image : pyval) (t : trace) :
  exists new b,
    upload_image_url world self author_id image t = (t ++ new, Ok b).
Proof.
  rewrite upload_image_url_eq.
  destruct (world _ _) as [| r]; [eauto |].
  destruct (status_code r =? 200)%Z; [eauto |].
  destruct (error_status (status_code r)); eauto.
Qed.

(** What [update_author] does, by its sub-operations. *)
Lemma update_author_eq (author_id dsc image : pyval) (t : trace) :
  update_author world self author_id dsc image t =
  if truthy dsc then
    match update_description world self author_id dsc t with
    | (t1, Ok _) =>
        if truthy image
        then upload_image_url world self author_id image t1
        else (t1, Ok true)
    | (t1, Raise e) =>
        (t1 ++ [EvLog ERROR (ErrorUpdatingAuthor author_id e)], Ok false)
    end
  else if truthy image
       then upload_image_url world self author_id image t
       else (t, Ok true).
Proof.
  unfold update_author. run.
  destruct (truthy dsc).
  - destruct (update_description world self author_id dsc t) as [t1 [[] | e]];
      [| reflexivity].
    destruct (truthy image); [| reflexivity].
    destruct (upload_image_url_ok author_id image t1) as (new & b & E).
    rewrite E. reflexivity.
  - destruct (truthy image); [| reflexivity].
    destruct (upload_image_url_ok author_id image t) as (new & b & E).
    rewrite E. reflexivity.
Qed.

(** C3. [update_author] never raises. It sends the description update
    exactly when the description argument is non-empty, and the image upload
    only when the image URL argument is non-empty; the boolean it returns is
    the conjunction of the results of the sub-operations it invoked, one that
    was not invoked counting as true. With both arguments empty it does
    nothing and returns true. *)
Theorem update_author_and_of_invoked :
  forall (author_id dsc image : pyval) (t : trace),
  exists new : trace,
    update_author world self author_id dsc image t =
      (t ++ new,
       Ok (and_invoked [description_result world self author_id dsc t;
                        image_result world self author_id dsc image t])) /\
    count patch_event new = (if truthy dsc then 1 else 0) /\
    invoked (description_result world self author_id dsc t) =
      (if truthy dsc then 1 else 0) /\
    count image_post_event new =
      invoked (image_result world self author_id dsc image t) /\
    invoked (image_result world self author_id dsc image t) <=
      (if truthy image then 1 else 0) /\
    update_author world self author_id PyNone PyNone t = (t, Ok true).
Proof.
  intros author_id dsc image t.
  rewrite !update_author_eq.
  unfold image_result, description_result, after_description.
  destruct (truthy dsc), (truthy image); simpl;
    rewrite ?update_description_eq;
    try (destruct (world t _) as [| r]; simpl;
         [| destruct (error_status (status_code r)); simpl]);
    rewrite ?upload_image_url_eq;
    try (destruct (world (_ ++ [EvLog INFO (UploadingImage image)]) _) as [| r'];
         simpl;
         [| destruct (status_code r' =? 200)%Z; simpl;
            [| destruct (error_status (status_code r')); simpl]]);
    first [ exists []; split; [rewrite app_nil_r; reflexivity |]
          | eexists; split; [flat; reflexivity |] ];
    simpl; repeat split; auto.
Qed.

(** C10, as amended. When both arguments are non-empty and the description
    update fails with a transport error or a 4xx/5xx status, [update_author]
    logs the error and returns false, and the image upload is not attempted:
    the PATCH request is the only request it sends. *)
Theorem update_author_stops_after_failed_patch :
  forall (author_id dsc image : pyval) (t : trace),
    truthy dsc = true ->
    truthy image = true ->
    patch_raises world self author_id dsc t = true ->
    exists e : exn,
      update_author world self author_id dsc image t =
        (t ++ [EvRequest (PatchAuthor (abs_url self) author_id dsc);
               EvLog ERROR (ErrorUpdatingAuthor author_id e)],
         Ok false) /\
      count image_post_event
        (events_of (update_author world self author_id dsc image) t) = 0.
Proof.
  intros author_id dsc image t Hd Hi Hp.
  unfold patch_raises in Hp.
  assert (E : exists e,
    update_author world self author_id dsc image t =
      (t ++ [EvRequest (PatchAuthor (abs_url self) author_id dsc);
             EvLog ERROR (ErrorUpdatingAuthor author_id e)],
       Ok false)).
  { rewrite update_author_eq, Hd, update_description_eq.
    destruct (world t _) as [| r].
    - exists RequestException. flat. reflexivity.
    - rewrite Hp. exists (HTTPError (status_code r)). flat. reflexivity. }
  destruct E as (e & E). exists e. split; [exact E |].
  rewrite events_of_app
    with (new := [EvRequest (PatchAuthor (abs_url self) author_id dsc);
                  EvLog ERROR (ErrorUpdatingAuthor author_id e)]).
  - reflexivity.
  - rewrite E. reflexivity.
Qed.

End LibraryClient.

(** ** The synchronisation loop: [process_authors] *)

Arguments lit _ : simpl never.
Arguments dict_get _ _ _ : simpl never.

Lemma try_bind_send {A} (world : World) (r : request)
    (k : http_response -> M A) (h : exn -> M A) (t : trace) :
  try_except (bind (send world r) k) h t =
  match world t r with
  | Failed => h RequestException (t ++ [EvRequest r])
  | Replied resp => try_except (k resp) h (t ++ [EvRequest r])
  end.
Proof.
  unfold try_except, bind, send. destruct (world t r); reflexivity.
Qed.

Lemma merge_write_no_patch d wiki (new : trace) :
  Forall (merge_write d wiki) new ->
  truthy (description_of d) = true ->
  count patch_event new = 0.
Proof.
  intros F H. unfold count.
  induction F as [| e l He _ IH]; simpl; [reflexivity |].
  destruct e as [[] | |]; simpl in *; auto.
  destruct He as [He _]. congruence.
Qed.

Lemma merge_write_no_image_post d wiki (new : trace) :
  Forall (merge_write d wiki) new ->
  truthy (image_path_of d) = true ->
  count image_post_event new = 0.
Proof.
  intros F H. unfold count.
  induction F as [| e l He _ IH]; simpl; [reflexivity |].
  destruct e as [[] | |]; simpl in *; auto.
  destruct He as [He _]. congruence.
Qed.

Lemma not_write_merge_write d wiki (e : event) :
  write_event e = false -> merge_write d wiki e.
Proof. destruct e as [[] | |]; simpl; auto; discriminate. Qed.

Section SyncRunner.

Variable world : World.
Variable self : updater.

(** A lookup starts with the search request, then sends only encyclopedia
    requests and log records, and returns. *)
Lemma search_wikipedia_shape (author_name : pyval) (t : trace) :
  exists (rest : trace) (wiki : option wiki_data),
    search_wikipedia world author_name t =
      (t ++ EvRequest (GetWikipediaSearch author_name) :: rest, Ok wiki) /\
    Forall (fun e => write_event e = false /\ sleep_event e = false) rest.
Proof.
  unfold search_wikipedia. rewrite try_bind_send.
  destruct (world t _) as [| resp].
  - run. flat. eexists _, _. split; [reflexivity | repeat constructor].
  - match goal with
    | |- context [try_except ?m ?h ?t'] =>
        assert (E : emits (fun e => write_event e = false /\ sleep_event e = false)
                          (try_except m h)) by emits_auto;
        assert (T : total (try_except m h))
          by (apply total_try; intros;
              apply total_bind; [apply total_emit | intros; apply total_ret]);
        destruct (E t') as (rest & E1 & F1); destruct (T t') as (wiki & T1);
        destruct (try_except m h t') as [t1 r1]
    end.
    simpl in E1, T1. subst t1 r1.
    exists rest, wiki. flat. auto.
Qed.


(** The loop body on a complete record. *)
Lemma process_author_complete (dry_run : bool) (delay : float)
    (d : list (pystr * pyval)) (c : run_summary) (t : trace) :
  complete d = true ->
  process_author world self dry_run delay (PyDict d) c t =
    (t ++ [EvLog INFO (Skipping (name_of d))], Ok (count_skipped c)).
Proof.
  unfold complete, description_of, image_path_of. intros H.
  apply andb_prop in H. destruct H as [Hd Hi].
  unfold process_author, needs_update. run. rewrite Hd, Hi. reflexivity.
Qed.

(** The live loop body on an incomplete record, by the outcome of the
    lookup and of the write. *)
Lemma process_author_live (delay : float)
    (d : list (pystr * pyval)) (c : run_summary) (t : trace) :
  complete d = false ->
  process_author world self false delay (PyDict d) c t =
    match search_wikipedia world (name_of d)
            (t ++ [EvLog INFO (Processing (name_of d))]) with
    | (t1, Ok (Some w)) =>
        match update_author world self (id_of d)
                (description_argument d w) (image_argument d w) t1 with
        | (t2, Ok success) =>
            (t2 ++ [EvSleep delay],
             after_sleep delay (if success then count_updated c else c))
        | (t2, Raise e) => (t2, Raise e)
        end
    | (t1, Ok None) => (t1 ++ [EvSleep delay], after_sleep delay c)
    | (t1, Raise e) => (t1, Raise e)
    end.
Proof.
  unfold complete, description_of, image_path_of. intros H.
  unfold process_author, needs_update. run.
  rewrite <- negb_andb, H. simpl.
  fold (name_of d).
  destruct (search_wikipedia world (name_of d) _) as [t1 [[w |] | e]];
    rewrite ?sleep_eq; unfold after_sleep;
    try (destruct (sleep_error delay); reflexivity).
  unfold description_argument, image_argument, description_of, image_path_of,
    id_of.
  destruct (update_author world self _ _ _ t1) as [t2 [[] | e]];
    rewrite ?sleep_eq; unfold after_sleep;
    destruct (sleep_error delay); reflexivity.
Qed.

(** The dry-run loop body on an incomplete record. *)
Lemma process_author_dry (delay : float)
    (d : list (pystr * pyval)) (c : run_summary) (t : trace) :
  complete d = false ->
  process_author world self true delay (PyDict d) c t =
    match search_wikipedia world (name_of d)
            (t ++ [EvLog INFO (Processing (name_of d))]) with
    | (t1, Ok (Some w)) =>
        (t1 ++ dry_run_logs (name_of d) w ++ [EvSleep delay], after_sleep delay c)
    | (t1, Ok None) => (t1 ++ [EvSleep delay], after_sleep delay c)
    | (t1, Raise e) => (t1, Raise e)
    end.
Proof.
  unfold complete, description_of, image_path_of. intros H.
  unfold process_author, needs_update. run.
  rewrite <- negb_andb, H. simpl.
  fold (name_of d).
  destruct (search_wikipedia world (name_of d) _) as [t1 [[w |] | e]];
    try reflexivity.
  - unfold dry_run_logs.
    destruct (description w), (truthy (image_url w)); simpl;
      rewrite sleep_eq; unfold after_sleep;
      destruct (sleep_error delay); flat; reflexivity.
  - rewrite sleep_eq. unfold after_sleep.
    destruct (sleep_error delay); reflexivity.
Qed.

Lemma update_author_requests (author_id dsc image : pyval) (t : trace) :
  exists (new : trace) (success : bool),
    update_author world self author_id dsc image t = (t ++ new, Ok success) /\
    Forall (update_request self author_id dsc image) new.
Proof.
  rewrite update_author_eq.
  destruct (truthy dsc) eqn:Hd, (truthy image) eqn:Hi;
    rewrite ?update_description_eq;
    try (destruct (world t _) as [| r]; simpl;
         [| destruct (error_status (status_code r)); simpl]);
    rewrite ?upload_image_url_eq;
    try (destruct (world (_ ++ [EvLog INFO (UploadingImage image)]) _) as [| r'];
         simpl;
         [| destruct (status_code r' =? 200)%Z; simpl;
            [| destruct (error_status (status_code r')); simpl]]);
    first [ exists [], true; split; [rewrite app_nil_r; reflexivity | constructor]
          | eexists _, _; split; [flat; reflexivity |] ];
    repeat (apply Forall_cons || apply Forall_nil); simpl; auto.
Qed.

Lemma get_all_authors_shape (t : trace) :
  exists (l : level) (m : logmsg) (authors : pyval),
    get_all_authors world self t =
      (t ++ [EvRequest (GetAuthors (abs_url self)
                          (if truthy (library_id self)
                           then Some (library_id self) else None));
             EvLog l m],
       Ok authors).
Proof.
  unfold get_all_authors. rewrite try_bind_send.
  destruct (world t _) as [| [st bd]].
  - run. flat. eauto.
  - run. destruct ((400 <=? st) && (st <? 600))%Z; simpl; [flat; eauto |].
    destruct bd as [data |]; simpl; [| flat; eauto].
    destruct data as [| | | | | | data]; simpl; try (flat; eauto).
    destruct (dict_get data (lit "authors") (PyList [])); simpl; flat; eauto.
Qed.

(** C6. If [get_all_authors] returns an empty sequence, [process_authors]
    logs one error and terminates at once: both counters are zero, and the
    only request of the run is the one that fetched the author list, so no
    lookup is attempted, no write is made and no delay is taken. *)
Theorem empty_author_list_ends_run :
  forall (dry_run : bool) (delay : float) (t : trace) (authors : pyval),
    snd (get_all_authors world self t) = Ok authors ->
    truthy authors = false ->
    exists (l : level) (m : logmsg),
      process_authors world self dry_run delay t =
        (t ++ [EvRequest (GetAuthors (abs_url self)
                            (if truthy (library_id self)
                             then Some (library_id self) else None));
               EvLog l m;
               EvLog ERROR NoAuthorsFound],
         Ok {| updated := 0; skipped := 0 |}) /\
      Forall (fun e => lookup_event e = false /\ write_event e = false /\
                       sleep_event e = false)
             (events_of (process_authors world self dry_run delay) t).
Proof.
  intros dry_run delay t authors Ha Hempty.
  destruct (get_all_authors_shape t) as (l & m & authors' & E).
  rewrite E in Ha. simpl in Ha. injection Ha as ->.
  assert (R : process_authors world self dry_run delay t =
    (t ++ [EvRequest (GetAuthors (abs_url self)
                        (if truthy (library_id self)
                         then Some (library_id self) else None));
           EvLog l m; EvLog ERROR NoAuthorsFound],
     Ok {| updated := 0; skipped := 0 |})).
  { unfold process_authors. unfold bind at 1. rewrite E, Hempty. run.
    flat. reflexivity. }
  exists l, m. split; [exact R |].
  erewrite events_of_app by (rewrite R; reflexivity).
  repeat constructor.
Qed.


Lemma update_request_merge_write d w (e : event) :
  update_request self (id_of d) (description_argument d w) (image_argument d w) e ->
  merge_write d (Some w) e.
Proof.
  unfold description_argument, image_argument.
  destruct e as [r | |]; simpl; auto.
  intros [[-> H] | [-> H]]; simpl.
  - destruct (truthy (description_of d)); simpl in *; [discriminate |].
    repeat split; eauto.
  - destruct (truthy (image_path_of d)); simpl in *; [discriminate |].
    repeat split; eauto.
Qed.

(** C1. For an author record missing exactly one of its description and
    its image path, the live loop body calls [update_author] (when the lookup
    succeeds) with [None] for the field the record has and the fetched value
    for the field it misses. Every write request it sends therefore fills the
    missing field with the fetched value, and no request writes the field
    that is present: no PATCH when the description is present, no image
    upload when the image path is present. *)
Theorem live_write_keeps_present_field :
  forall (delay : float) (d : list (pystr * pyval)) (c : run_summary) (t : trace),
    truthy (description_of d) <> truthy (image_path_of d) ->
    exists (new : trace) (wiki : option wiki_data),
      snd (search_wikipedia world (name_of d)
             (t ++ [EvLog INFO (Processing (name_of d))])) = Ok wiki /\
      fst (process_author world self false delay (PyDict d) c t) = t ++ new /\
      Forall (merge_write d wiki) new /\
      (if truthy (description_of d)
       then count patch_event new = 0
       else count image_post_event new = 0) /\
      match wiki with
      | Some w =>
          fst (process_author world self false delay (PyDict d) c t) =
          fst (update_author world self (id_of d)
                 (if truthy (description_of d) then PyNone else PyStr (description w))
                 (if truthy (image_path_of d) then PyNone else image_url w)
                 (fst (search_wikipedia world (name_of d)
                         (t ++ [EvLog INFO (Processing (name_of d))]))))
          ++ [EvSleep delay]
      | None => True
      end.
Proof.
  intros delay d c t Hone.
  assert (Hc : complete d = false).
  { unfold complete.
    destruct (truthy (description_of d)), (truthy (image_path_of d));
      auto; congruence. }
  destruct (search_wikipedia_shape (name_of d)
              (t ++ [EvLog INFO (Processing (name_of d))]))
    as (rest & wiki & E & F).
  assert (F' : Forall (merge_write d wiki) rest).
  { eapply Forall_impl; [| exact F].
    intros e [He _]. apply not_write_merge_write. exact He. }
  rewrite process_author_live, E by exact Hc. simpl.
  destruct wiki as [w |].
  - destruct (update_author_requests (id_of d) (description_argument d w)
                (image_argument d w)
                ((t ++ [EvLog INFO (Processing (name_of d))]) ++
                 EvRequest (GetWikipediaSearch (name_of d)) :: rest))
      as (new & success & E2 & F2).
    assert (Fall : Forall (merge_write d (Some w))
              (EvLog INFO (Processing (name_of d))
               :: EvRequest (GetWikipediaSearch (name_of d))
               :: rest ++ new ++ [EvSleep delay])).
    { repeat (apply Forall_cons; [exact I |]).
      apply Forall_app. split; [exact F' |].
      apply Forall_app. split; [| repeat constructor].
      eapply Forall_impl; [| exact F2].
      intros e. apply update_request_merge_write. }
    exists (EvLog INFO (Processing (name_of d))
            :: EvRequest (GetWikipediaSearch (name_of d))
            :: rest ++ new ++ [EvSleep delay]), (Some w).
    rewrite E2. simpl.
    split; [reflexivity |].
    split; [flat; reflexivity |].
    split; [exact Fall |].
    split.
    + destruct (truthy (description_of d)) eqn:Hd.
      * eapply merge_write_no_patch; eauto.
      * eapply merge_write_no_image_post; eauto.
        destruct (truthy (image_path_of d)); congruence.
    + unfold description_argument, image_argument in E2.
      destruct (truthy (description_of d)), (truthy (image_path_of d));
        simpl in E2; rewrite E2; reflexivity.
  - exists (EvLog INFO (Processing (name_of d))
            :: EvRequest (GetWikipediaSearch (name_of d))
            :: rest ++ [EvSleep delay]), None.
    simpl.
    split; [reflexivity |].
    split; [flat; reflexivity |].
    assert (Fall : Forall (merge_write d None)
              (EvLog INFO (Processing (name_of d))
               :: EvRequest (GetWikipediaSearch (name_of d))
               :: rest ++ [EvSleep delay])).
    { repeat (apply Forall_cons; [exact I |]).
      apply Forall_app. split; [exact F' | repeat constructor]. }
    split; [exact Fall |].
    split; [| exact I].
    destruct (truthy (description_of d)) eqn:Hd.
    + eapply merge_write_no_patch; eauto.
    + eapply merge_write_no_image_post; eauto.
      destruct (truthy (image_path_of d)); congruence.
Qed.

(** A live write with nothing to write: the record misses only its image
    and the lookup found no image. [update_author] receives two empty
    arguments, sends nothing and reports success, and the author is counted
    as updated. *)
Lemma live_update_without_request (delay : float) (d : list (pystr * pyval))
    (c : run_summary) (t t1 : trace) (w : wiki_data) :
  sleep_error delay = None ->
  truthy (description_of d) = true ->
  truthy (image_path_of d) = false ->
  truthy (image_url w) = false ->
  search_wikipedia world (name_of d)
    (t ++ [EvLog INFO (Processing (name_of d))]) = (t1, Ok (Some w)) ->
  truthy (description_argument d w) = false /\
  truthy (image_argument d w) = false /\
  update_author world self (id_of d) (description_argument d w)
    (image_argument d w) t1 = (t1, Ok true) /\
  process_author world self false delay (PyDict d) c t =
    (t1 ++ [EvSleep delay], Ok (count_updated c)).
Proof.
  intros Hs Hd Hi Hw E.
  assert (Hc : complete d = false) by (unfold complete; rewrite Hd, Hi; reflexivity).
  assert (A1 : truthy (description_argument d w) = false)
    by (unfold description_argument; rewrite Hd; reflexivity).
  assert (A2 : truthy (image_argument d w) = false)
    by (unfold image_argument; rewrite Hi; exact Hw).
  assert (U : update_author world self (id_of d) (description_argument d w)
                (image_argument d w) t1 = (t1, Ok true))
    by (rewrite update_author_eq, A1, A2; reflexivity).
  repeat split; auto.
  rewrite process_author_live, E, U by exact Hc.
  unfold after_sleep. rewrite Hs. reflexivity.
Qed.

End SyncRunner.

(** ** The encyclopedia client: the result of a lookup *)

Lemma try_bind_pure {A B} (r : result A) (k : A -> M B) (h : exn -> M B) (t : trace) :
  try_except (bind (pure r) k) h t =
  match r with
  | Ok a => try_except (k a) h t
  | Raise e => h e t
  end.
Proof. unfold try_except, bind, pure. destruct r; reflexivity. Qed.

Lemma try_bind_json {B} (resp : http_response) (k : pyval -> M B)
    (h : exn -> M B) (t : trace) :
  try_except (bind (json resp) k) h t =
  match body resp with
  | Some v => try_except (k v) h t
  | None => h JSONDecodeError t
  end.
Proof. unfold try_except, bind, json, ret, raise. destruct (body resp); reflexivity. Qed.

Section EncyclopediaClient.

Variable world : World.

(** C8. When a lookup succeeds, the search reply had a top result whose
    title is a string, the page reply had a first page, and the result is
    built from them: its description is the page's extract (the empty string
    when the page has none) without its leading and trailing whitespace, its
    image URL is the [source] of the page's [original] image when there is
    one and [None] otherwise, and its source URL is the encyclopedia prefix
    followed by the title with every space replaced by an underscore. *)
Theorem search_wikipedia_result :
  forall (author_name : pyval) (t : trace) (r : wiki_data),
    snd (search_wikipedia world author_name t) = Ok (Some r) ->
    exists (title : pystr) (page_info original : list (pystr * pyval))
           (extract : pystr),
      top_title (world t (GetWikipediaSearch author_name)) = Some (PyStr title) /\
      first_page (world (t ++ [EvRequest (GetWikipediaSearch author_name)])
                    (GetWikipediaPage (PyStr title))) = Some (PyDict page_info) /\
      dict_get page_info (lit "extract") (PyStr []) = PyStr extract /\
      description r = strip extract /\
      trimmed extract (description r) /\
      dict_get page_info (lit "original") (PyDict []) = PyDict original /\
      image_url r = dict_get original (lit "source") PyNone /\
      source r = wiki_prefix ++ replace space underscore title /\
      Forall2 (fun a b => b = if (a =? space)%N then underscore else a)
              title (replace space underscore title).
Proof.
  intros author_name t r H.
  unfold search_wikipedia in H.
  rewrite try_bind_send in H.
  destruct (world t (GetWikipediaSearch author_name)) as [| resp1] eqn:W1;
    [run; discriminate |].
  rewrite try_bind_json in H.
  destruct (body resp1) as [search_data |] eqn:B1; [| run; discriminate].
  rewrite try_bind_pure in H.
  destruct (py_get search_data (lit "query") (PyDict [])) as [query | ?] eqn:G1;
    [| run; discriminate].
  rewrite try_bind_pure in H.
  destruct (py_get query (lit "search") PyNone) as [hits | ?] eqn:G2;
    [| run; discriminate].
  destruct (truthy hits) eqn:T; simpl in H; [| run; discriminate].
  rewrite try_bind_pure in H.
  destruct (py_getitem search_data (lit "query")) as [q | ?] eqn:I1;
    [| run; discriminate].
  rewrite try_bind_pure in H.
  destruct (py_getitem q (lit "search")) as [s | ?] eqn:I2; [| run; discriminate].
  rewrite try_bind_pure in H.
  destruct (py_getitem0 s) as [top | ?] eqn:I3; [| run; discriminate].
  rewrite try_bind_pure in H.
  destruct (py_getitem top (lit "title")) as [page_title | ?] eqn:I4;
    [| run; discriminate].
  rewrite try_bind_send in H.
  destruct (world (t ++ [EvRequest (GetWikipediaSearch author_name)])
              (GetWikipediaPage page_title)) as [| resp2] eqn:W2;
    [run; discriminate |].
  rewrite try_bind_json in H.
  destruct (body resp2) as [page_data |] eqn:B2; [| run; discriminate].
  rewrite try_bind_pure in H.
  destruct (py_get page_data (lit "query") (PyDict [])) as [query' | ?] eqn:G3;
    [| run; discriminate].
  rewrite try_bind_pure in H.
  destruct (py_get query' (lit "pages") (PyDict [])) as [pages | ?] eqn:G4;
    [| run; discriminate].
  rewrite try_bind_pure in H.
  destruct (py_first_value pages) as [page_info | ?] eqn:F1; [| run; discriminate].
  rewrite try_bind_pure in H.
  destruct (py_get page_info (lit "extract") (PyStr [])) as [extract | ?] eqn:G5;
    [| run; discriminate].
  rewrite try_bind_pure in H.
  destruct (py_strip extract) as [dsc | ?] eqn:S1; [| run; discriminate].
  rewrite try_bind_pure in H.
  destruct (py_get page_info (lit "original") (PyDict [])) as [original | ?] eqn:G6;
    [| run; discriminate].
  rewrite try_bind_pure in H.
  destruct (py_get original (lit "source") PyNone) as [image | ?] eqn:G7;
    [| run; discriminate].
  rewrite try_bind_pure in H.
  destruct (py_replace_space page_title) as [title' | ?] eqn:R1;
    [| run; discriminate].
  run. injection H as <-.
  destruct page_title as [| | | | title | |]; try discriminate.
  destruct page_info as [| | | | | | page_info]; try discriminate.
  destruct original as [| | | | | | original]; try discriminate.
  destruct extract as [| | | | extract | |]; try discriminate.
  simpl in *.
  injection G5 as G5. injection S1 as <-. injection G7 as <-.
  injection G6 as G6. injection R1 as <-.
  exists title, page_info, original, extract.
  destruct resp1 as [st1 b1], resp2 as [st2 b2]. simpl in B1, B2. subst b1 b2.
  unfold top_title, first_page. rewrite W2. simpl.
  rewrite I1. simpl. rewrite I2. simpl. rewrite I3. simpl. rewrite I4.
  rewrite G3. simpl. rewrite G4. simpl. rewrite F1. simpl.
  repeat split; auto using strip_trimmed, replace_pointwise.
Qed.

End EncyclopediaClient.

(** ** The scenarios, run *)

Import Scenario.

(** The end-to-end scenario of the specification: the live run patches the
    description, does not upload an image, and counts one update. *)
Example jane_live_run :
  process_authors jane_world self false 1%float [] =
    ([EvRequest (GetAuthors (abs_url self) None);
      EvLog INFO (FoundAuthors 1);
      EvLog INFO (Processing (PyStr (lit "Jane Doe")));
      EvRequest (GetWikipediaSearch (PyStr (lit "Jane Doe")));
      EvRequest (GetWikipediaPage (PyStr (lit "Jane Doe")));
      EvLog INFO (FoundWikipediaData (PyStr (lit "Jane Doe")));
      EvRequest (PatchAuthor (abs_url self) (PyStr (lit "a1"))
                   (PyStr (lit "Jane Doe is a writer...")));
      EvLog INFO (UpdatedDescription (PyStr (lit "a1")));
      EvSleep 1%float;
      EvLog INFO ProcessingComplete;
      EvLog INFO (AuthorsUpdated 1);
      EvLog INFO (AuthorsSkipped 0)],
     Ok {| updated := 1; skipped := 0 |}).
Proof. vm_compute. reflexivity. Qed.

Example jane_lookup :
  snd (search_wikipedia jane_world (PyStr (lit "Jane Doe")) []) =
  Ok (Some jane_result).
Proof. vm_compute. reflexivity. Qed.

Example two_authors_run :
  snd (process_authors two_authors_world self false 1%float []) =
    Ok {| updated := 1; skipped := 1 |} /\
  count (fun e => match e with
                  | EvRequest (GetWikipediaSearch _) => true
                  | _ => false
                  end)
    (fst (process_authors two_authors_world self false 1%float [])) = 1 /\
  count sleep_event (fst (process_authors two_authors_world self false 1%float [])) = 1.
Proof. vm_compute. auto. Qed.

(** *** A live write on a record that misses one field *)

(** Jane's record misses its description only; the lookup finds both. *)
Lemma live_write_keeps_present_field_witness :
  truthy (description_of jane) <> truthy (image_path_of jane) /\
  exists (new : trace) (wiki : option wiki_data),
    snd (search_wikipedia jane_world (name_of jane)
           ([] ++ [EvLog INFO (Processing (name_of jane))])) = Ok wiki /\
    fst (process_author jane_world self false 1%float (PyDict jane) no_counts [])
      = [] ++ new /\
    Forall (merge_write jane wiki) new /\
    (if truthy (description_of jane)
     then count patch_event new = 0
     else count image_post_event new = 0) /\
    match wiki with
    | Some w =>
        fst (process_author jane_world self false 1%float (PyDict jane) no_counts []) =
        fst (update_author jane_world self (id_of jane)
               (if truthy (description_of jane) then PyNone else PyStr (description w))
               (if truthy (image_path_of jane) then PyNone else image_url w)
               (fst (search_wikipedia jane_world (name_of jane)
                       ([] ++ [EvLog INFO (Processing (name_of jane))]))))
        ++ [EvSleep 1%float]
    | None => True
    end.
Proof.
  split.
  - vm_compute. discriminate.
  - apply (live_write_keeps_present_field jane_world self 1%float jane no_counts []).
    vm_compute. discriminate.
Defined.

(** *** An image upload answered with a status outside 2xx *)

(** C4. The image upload is answered with status 304, which is not a 2xx
    status. [upload_image_url] logs that the upload failed with status 304,
    [raise_for_status] does not raise on it, and the method goes on to log a
    success and to return true. *)
Theorem upload_image_url_true_on_304 :
  upload_image_url not_modified_world self
      (PyStr (lit "a1")) (PyStr (lit "http://x/y.jpg")) [] =
    ([EvLog INFO (UploadingImage (PyStr (lit "http://x/y.jpg")));
      EvRequest (PostAuthorImage (abs_url self) (PyStr (lit "a1"))
                   (PyStr (lit "http://x/y.jpg")));
      EvLog ERROR (ImageUploadFailed 304);
      EvLog INFO (UploadedImage (PyStr (lit "a1")))],
     Ok true).
Proof. vm_compute. reflexivity. Qed.

(** *** A search without results *)


(** *** An empty author list *)

(** The library server lists no author. *)
Lemma empty_author_list_ends_run_witness :
  snd (get_all_authors empty_world self []) = Ok (PyList []) /\
  truthy (PyList []) = false /\
  exists (l : level) (m : logmsg),
    process_authors empty_world self false 1%float [] =
      ([] ++ [EvRequest (GetAuthors (abs_url self)
                           (if truthy (library_id self)
                            then Some (library_id self) else None));
              EvLog l m;
              EvLog ERROR NoAuthorsFound],
       Ok {| updated := 0; skipped := 0 |}) /\
    Forall (fun e => lookup_event e = false /\ write_event e = false /\
                     sleep_event e = false)
           (events_of (process_authors empty_world self false 1%float) []).
Proof.
  split; [reflexivity |]. split; [reflexivity |].
  apply (empty_author_list_ends_run empty_world self false 1%float []
           (authors := PyList [])); reflexivity.
Defined.

(** *** A successful lookup *)

(** The lookup for Jane returns [jane_result]. *)
Lemma search_wikipedia_result_witness :
  snd (search_wikipedia jane_world (name_of jane) []) = Ok (Some jane_result) /\
  exists (title : pystr) (page_info original : list (pystr * pyval))
         (extract : pystr),
    top_title (jane_world [] (GetWikipediaSearch (name_of jane)))
      = Some (PyStr title) /\
    first_page (jane_world ([] ++ [EvRequest (GetWikipediaSearch (name_of jane))])
                  (GetWikipediaPage (PyStr title))) = Some (PyDict page_info) /\
    dict_get page_info (lit "extract") (PyStr []) = PyStr extract /\
    description jane_result = strip extract /\
    trimmed extract (description jane_result) /\
    dict_get page_info (lit "original") (PyDict []) = PyDict original /\
    image_url jane_result = dict_get original (lit "source") PyNone /\
    source jane_result = wiki_prefix ++ replace space underscore title /\
    Forall2 (fun a b => b = if (a =? space)%N then underscore else a)
            title (replace space underscore title).
Proof.
  split; [vm_compute; reflexivity |].
  apply (search_wikipedia_result jane_world (name_of jane) [] (r := jane_result)).
  vm_compute. reflexivity.
Defined.

(** *** An update without a write *)

(** C9. In live mode an author can be counted as updated although no write
    request was sent. John's record has a description and no image, and the
    page found for him has no image: both arguments of [update_author] are
    empty, it sends no request and returns true, the updated counter is
    incremented, and the whole run reports one update without one write. *)
Theorem updated_counted_without_write :
  exists (world : World) (d : list (pystr * pyval)) (w : wiki_data) (t1 : trace),
    truthy (description_of d) = true /\
    truthy (image_path_of d) = false /\
    search_wikipedia world (name_of d)
      ([] ++ [EvLog INFO (Processing (name_of d))]) = (t1, Ok (Some w)) /\
    truthy (image_url w) = false /\
    truthy (description_argument d w) = false /\
    truthy (image_argument d w) = false /\
    update_author world self (id_of d) (description_argument d w)
      (image_argument d w) t1 = (t1, Ok true) /\
    process_author world self false 1%float (PyDict d) no_counts [] =
      (t1 ++ [EvSleep 1%float], Ok (count_updated no_counts)) /\
    write_calls (fst (process_author world self false 1%float (PyDict d)
                        no_counts [])) = 0 /\
    snd (process_authors world self false 1%float []) =
      Ok {| updated := 1; skipped := 0 |} /\
    write_calls (fst (process_authors world self false 1%float [])) = 0.
Proof.
  exists john_world, john, john_result.
  destruct (search_wikipedia john_world (name_of john)
              ([] ++ [EvLog INFO (Processing (name_of john))]))
    as [t1 r] eqn:E.
  assert (R : r = Ok (Some john_result)).
  { apply (f_equal snd) in E. simpl in E. rewrite <- E. vm_compute. reflexivity. }
  subst r. exists t1.
  assert (Hd : truthy (description_of john) = true) by reflexivity.
  assert (Hi : truthy (image_path_of john) = false) by reflexivity.
  assert (Hw : truthy (image_url john_result) = false) by reflexivity.
  destruct (@live_update_without_request john_world self 1%float john
              no_counts [] t1 john_result eq_refl Hd Hi Hw E)
    as (A1 & A2 & U & P).
  repeat split; auto; vm_compute; reflexivity.
Qed.

(** *** A failed description update *)

(** With a 304 answer to the PATCH, which is a status outside 2xx, the image
    upload is attempted all the same and the result is true. *)
Lemma update_author_continues_after_304 :
  ~ (forall (world : World) (self : updater) (author_id dsc image : pyval)
            (t : trace),
       truthy dsc = true ->
       truthy image = true ->
       patch_fails world self author_id dsc t = true ->
       snd (update_author world self author_id dsc image t) = Ok false /\
       count image_post_event
         (events_of (update_author world self author_id dsc image) t) = 0).
Proof.
  intros H.
  specialize (H not_modified_world self (PyStr (lit "a1"))
                (PyStr (lit "Jane Doe is a writer..."))
                (PyStr (lit "http://x/y.jpg")) []
                eq_refl eq_refl eq_refl).
  vm_compute in H. destruct H as [H _]. discriminate H.
Qed.

(** The library server answers 403 to the PATCH. *)
Lemma update_author_stops_after_failed_patch_witness :
  truthy (PyStr (lit "Jane Doe is a writer...")) = true /\
  truthy (PyStr (lit "http://x/y.jpg")) = true /\
  patch_raises forbidden_world self (PyStr (lit "a1"))
    (PyStr (lit "Jane Doe is a writer...")) [] = true /\
  exists e : exn,
    update_author forbidden_world self (PyStr (lit "a1"))
        (PyStr (lit "Jane Doe is a writer...")) (PyStr (lit "http://x/y.jpg")) [] =
      ([] ++ [EvRequest (PatchAuthor (abs_url self) (PyStr (lit "a1"))
                           (PyStr (lit "Jane Doe is a writer...")));
              EvLog ERROR (ErrorUpdatingAuthor (PyStr (lit "a1")) e)],
       Ok false) /\
    count image_post_event
      (events_of (update_author forbidden_world self (PyStr (lit "a1"))
                    (PyStr (lit "Jane Doe is a writer..."))
                    (PyStr (lit "http://x/y.jpg"))) []) = 0.
Proof.
  split; [reflexivity |]. split; [reflexivity |]. split; [reflexivity |].
  apply (update_author_stops_after_failed_patch forbidden_world self
           (PyStr (lit "a1")) (PyStr (lit "Jane Doe is a writer..."))
           (PyStr (lit "http://x/y.jpg")) []); reflexivity.
Defined.

(** ** Further properties of the methods *)

(** *** The lookup, step by step *)

Section Lookup.

Variable world : World.

(** [search_wikipedia] is the two pure steps around its two requests. *)
Lemma search_wikipedia_eq (author_name : pyval) (t : trace) :
  search_wikipedia world author_name t =
  let t1 := t ++ [EvRequest (GetWikipediaSearch author_name)] in
  match rbind (decoded (world t (GetWikipediaSearch author_name))) search_title with
  | Raise e =>
      (t1 ++ [EvLog ERROR (ErrorSearchingWikipedia author_name e)], Ok None)
  | Ok None =>
      (t1 ++ [EvLog WARNING (NoWikipediaPage author_name)], Ok None)
  | Ok (Some page_title) =>
      let t2 := t1 ++ [EvRequest (GetWikipediaPage page_title)] in
      match rbind (decoded (world t1 (GetWikipediaPage page_title)))
                  (build_result page_title) with
      | Raise e =>
          (t2 ++ [EvLog ERROR (ErrorSearchingWikipedia author_name e)], Ok None)
      | Ok r =>
          (t2 ++ [EvLog INFO (FoundWikipediaData author_name)], Ok (Some r))
      end
  end.
Proof.
  unfold search_wikipedia, search_title, build_result.
  rewrite try_bind_send.
  destruct (world t (GetWikipediaSearch author_name)) as [| resp1];
    [reflexivity |].
  rewrite try_bind_json. simpl.
  destruct (body resp1) as [search_data |]; [| reflexivity].
  rewrite try_bind_pure. simpl.
  destruct (py_get search_data (lit "query") (PyDict [])) as [query | ?];
    [| reflexivity].
  rewrite try_bind_pure. simpl.
  destruct (py_get query (lit "search") PyNone) as [hits | ?]; [| reflexivity].
  simpl. destruct (truthy hits); simpl; [| reflexivity].
  rewrite try_bind_pure.
  destruct (py_getitem search_data (lit "query")) as [q | ?]; [| reflexivity].
  rewrite try_bind_pure. simpl.
  destruct (py_getitem q (lit "search")) as [s | ?]; [| reflexivity].
  rewrite try_bind_pure. simpl.
  destruct (py_getitem0 s) as [top | ?]; [| reflexivity].
  rewrite try_bind_pure. simpl.
  destruct (py_getitem top (lit "title")) as [page_title | ?]; [| reflexivity].
  rewrite try_bind_send. simpl.
  destruct (world (t ++ [EvRequest (GetWikipediaSearch author_name)])
              (GetWikipediaPage page_title)) as [| resp2]; [reflexivity |].
  rewrite try_bind_json. simpl.
  destruct (body resp2) as [page_data |]; [| reflexivity].
  rewrite try_bind_pure. simpl.
  destruct (py_get page_data (lit "query") (PyDict [])) as [query' | ?];
    [| reflexivity].
  rewrite try_bind_pure. simpl.
  destruct (py_get query' (lit "pages") (PyDict [])) as [pages | ?];
    [| reflexivity].
  rewrite try_bind_pure. simpl.
  destruct (py_first_value pages) as [page_info | ?]; [| reflexivity].
  rewrite try_bind_pure. simpl.
  destruct (py_get page_info (lit "extract") (PyStr [])) as [extract | ?];
    [| reflexivity].
  rewrite try_bind_pure. simpl.
  destruct (py_strip extract) as [dsc | ?]; [| reflexivity].
  rewrite try_bind_pure. simpl.
  destruct (py_get page_info (lit "original") (PyDict [])) as [original | ?];
    [| reflexivity].
  rewrite try_bind_pure. simpl.
  destruct (py_get original (lit "source") PyNone) as [image | ?];
    [| reflexivity].
  rewrite try_bind_pure. simpl.
  destruct (py_replace_space page_title) as [title' | ?]; reflexivity.
Qed.

Lemma getitem_get (v : pyval) (k : pystr) (x default : pyval) :
  py_getitem v k = Ok x -> py_get v k default = Ok x.
Proof.
  destruct v; simpl; try discriminate.
  unfold dict_get. destruct (dict_find d k); congruence.
Qed.

Lemma getitem0_truthy (s x : pyval) : py_getitem0 s = Ok x -> truthy s = true.
Proof.
  destruct s as [| | | | [| c s] | [| y l] |]; simpl; congruence.
Qed.

Lemma top_title_search_title (r : reply) (page_title : pyval) :
  top_title r = Some page_title ->
  rbind (decoded r) search_title = Ok (Some page_title).
Proof.
  unfold top_title, decoded, search_title.
  destruct r as [| [st [search_data |]]]; simpl; try discriminate.
  destruct (py_getitem search_data (lit "query")) as [q | ?] eqn:I1;
    simpl; [| discriminate].
  destruct (py_getitem q (lit "search")) as [s | ?] eqn:I2; simpl; [| discriminate].
  destruct (py_getitem0 s) as [top | ?] eqn:I3; simpl; [| discriminate].
  destruct (py_getitem top (lit "title")) as [x | ?] eqn:I4; simpl; [| discriminate].
  intros H. injection H as ->.
  rewrite (getitem_get _ _ (PyDict []) I1). simpl.
  rewrite (getitem_get _ _ PyNone I2). simpl.
  rewrite (getitem0_truthy _ I3). reflexivity.
Qed.

(** X1. A lookup never raises and never repeats a request. It sends the
    search request and at most one page request, and writes exactly one log
    record: the INFO record of a success exactly when it returns a result
    (after both requests), a WARNING or ERROR record when it returns
    nothing. *)
Theorem search_wikipedia_outcomes :
  forall (author_name : pyval) (t : trace),
  exists (new : trace) (wiki : option wiki_data),
    search_wikipedia world author_name t = (t ++ new, Ok wiki) /\
    match wiki with
    | Some _ =>
        (exists p, requests_of new =
                     [GetWikipediaSearch author_name; GetWikipediaPage p]) /\
        logs_of new = [(INFO, FoundWikipediaData author_name)]
    | None =>
        (requests_of new = [GetWikipediaSearch author_name] \/
         exists p, requests_of new =
                     [GetWikipediaSearch author_name; GetWikipediaPage p]) /\
        exists l m, logs_of new = [(l, m)] /\ l <> INFO
    end.
Proof.
  intros author_name t. rewrite search_wikipedia_eq. simpl.
  destruct (rbind (decoded (world t (GetWikipediaSearch author_name)))
              search_title) as [[page_title |] | e].
  - destruct (rbind (decoded _) (build_result page_title)) as [r | e];
      eexists _, _; (split; [flat; reflexivity |]); simpl.
    + eauto.
    + split; [eauto |]. eexists _, _. split; [reflexivity | discriminate].
  - eexists _, _. split; [flat; reflexivity |]. simpl.
    split; [auto |]. eexists _, _. split; [reflexivity | discriminate].
  - eexists _, _. split; [flat; reflexivity |]. simpl.
    split; [auto |]. eexists _, _. split; [reflexivity | discriminate].
Qed.

(** X2. A lookup succeeds whenever the search reply has a top result with
    a string title and the page reply has a first page whose extract, if
    any, is a string and whose [original], if any, is an object: it sends
    the two requests, logs the success and returns the trimmed extract, the
    image source and the page URL. Together with the converse on a returned
    result, this says exactly when a lookup succeeds. *)
Theorem search_wikipedia_succeeds :
  forall (author_name : pyval) (t : trace) (title extract : pystr)
         (page_info original : list (pystr * pyval)),
    top_title (world t (GetWikipediaSearch author_name)) = Some (PyStr title) ->
    first_page (world (t ++ [EvRequest (GetWikipediaSearch author_name)])
                  (GetWikipediaPage (PyStr title))) = Some (PyDict page_info) ->
    dict_get page_info (lit "extract") (PyStr []) = PyStr extract ->
    dict_get page_info (lit "original") (PyDict []) = PyDict original ->
    search_wikipedia world author_name t =
      (t ++ [EvRequest (GetWikipediaSearch author_name);
             EvRequest (GetWikipediaPage (PyStr title));
             EvLog INFO (FoundWikipediaData author_name)],
       Ok (Some {| description := strip extract;
                   image_url := dict_get original (lit "source") PyNone;
                   source := wiki_prefix ++ replace space underscore title |})).
Proof.
  intros author_name t title extract page_info original Ht Hp He Ho.
  rewrite search_wikipedia_eq. simpl.
  rewrite (top_title_search_title _ Ht).
  unfold first_page in Hp. unfold decoded, build_result.
  destruct (world (t ++ [EvRequest (GetWikipediaSearch author_name)])
              (GetWikipediaPage (PyStr title))) as [| [st [page_data |]]];
    simpl in *; try discriminate.
  destruct (py_get page_data (lit "query") (PyDict [])) as [q | ?];
    simpl in *; [| discriminate].
  destruct (py_get q (lit "pages") (PyDict [])) as [pages | ?];
    simpl in *; [| discriminate].
  destruct (py_first_value pages) as [info | ?]; simpl in *; [| discriminate].
  injection Hp as ->. simpl. rewrite He. simpl. rewrite Ho. simpl.
  flat. reflexivity.
Qed.

(** The failure of the first step ends the lookup after one request. *)
Lemma search_wikipedia_first_step_fails (author_name : pyval) (t : trace) (e : exn) :
  rbind (decoded (world t (GetWikipediaSearch author_name))) search_title
    = Raise e ->
  search_wikipedia world author_name t =
    (t ++ [EvRequest (GetWikipediaSearch author_name);
           EvLog ERROR (ErrorSearchingWikipedia author_name e)],
     Ok None).
Proof. intros H. rewrite search_wikipedia_eq. simpl. rewrite H. flat. reflexivity. Qed.

Lemma lstrip_fixed (s : pystr) :
  match s with [] => True | c :: _ => py_isspace c = false end ->
  lstrip s = s.
Proof. destruct s as [| c s]; simpl; [reflexivity |]. intros ->. reflexivity. Qed.

Lemma strip_idempotent (s : pystr) : strip (strip s) = strip s.
Proof.
  destruct (strip_trimmed s) as (pre & suf & _ & _ & _ & Hh & Hl).
  unfold strip at 1. rewrite (lstrip_fixed _ Hh).
  unfold rstrip. rewrite (lstrip_fixed _ Hl). apply rev_involutive.
Qed.

Lemma replace_no_old (old new : N) (s : pystr) :
  old <> new -> ~ In old (replace old new s).
Proof.
  intros Hneq. induction s as [| c s IH]; simpl; [tauto |].
  destruct (c =? old)%N eqn:E.
  - intros [H | H]; [congruence | tauto].
  - apply N.eqb_neq in E. intros [H | H]; [congruence | tauto].
Qed.

(** X3. The result of a successful lookup is normalised: stripping its
    description again changes nothing, and its source URL is the page prefix
    followed by a path without any space, as long as the title the search
    returned. *)
Theorem search_wikipedia_result_normalised :
  forall (author_name : pyval) (t : trace) (r : wiki_data),
    snd (search_wikipedia world author_name t) = Ok (Some r) ->
    strip (description r) = description r /\
    exists title path : pystr,
      top_title (world t (GetWikipediaSearch author_name)) = Some (PyStr title) /\
      source r = wiki_prefix ++ path /\
      List.length path = List.length title /\
      ~ In space path.
Proof.
  intros author_name t r H.
  rewrite search_wikipedia_eq in H. simpl in H.
  destruct (rbind (decoded (world t (GetWikipediaSearch author_name)))
              search_title) as [[page_title |] | e] eqn:S1;
    try discriminate.
  destruct (rbind (decoded _) (build_result page_title)) as [r' | e] eqn:S2;
    try discriminate.
  simpl in H. injection H as ->.
  unfold build_result in S2.
  destruct (decoded (world _ (GetWikipediaPage page_title))) as [page_data | ?];
    simpl in S2; [| discriminate].
  destruct (py_get page_data (lit "query") (PyDict [])) as [q | ?];
    simpl in S2; [| discriminate].
  destruct (py_get q (lit "pages") (PyDict [])) as [pages | ?];
    simpl in S2; [| discriminate].
  destruct (py_first_value pages) as [info | ?]; simpl in S2; [| discriminate].
  destruct (py_get info (lit "extract") (PyStr [])) as [extract | ?];
    simpl in S2; [| discriminate].
  destruct extract as [| | | | extract | |]; simpl in S2; try discriminate.
  destruct (py_get info (lit "original") (PyDict [])) as [original | ?];
    simpl in S2; [| discriminate].
  destruct (py_get original (lit "source") PyNone) as [image | ?];
    simpl in S2; [| discriminate].
  destruct page_title as [| | | | title | |]; simpl in S2; try discriminate.
  injection S2 as <-. simpl.
  split; [apply strip_idempotent |].
  exists title, (replace space underscore title).
  repeat split.
  - unfold search_title, decoded, top_title in *.
    destruct (world t (GetWikipediaSearch author_name)) as [| [st [data |]]];
      simpl in *; try discriminate.
    destruct (py_get data (lit "query") (PyDict [])) as [query | ?];
      simpl in S1; [| discriminate].
    destruct (py_get query (lit "search") PyNone) as [hits | ?];
      simpl in S1; [| discriminate].
    destruct (truthy hits); simpl in S1; [| discriminate].
    destruct (py_getitem data (lit "query")) as [q' | ?]; simpl in *;
      [| discriminate].
    destruct (py_getitem q' (lit "search")) as [s | ?]; simpl in *;
      [| discriminate].
    destruct (py_getitem0 s) as [top | ?]; simpl in *; [| discriminate].
    destruct (py_getitem top (lit "title")) as [x | ?]; simpl in *;
      [| discriminate].
    congruence.
  - unfold replace. apply length_map.
  - apply replace_no_old. discriminate.
Qed.

End Lookup.

(** *** The library client *)

Section Library.

Variable world : World.
Variable self : updater.

(** [get_all_authors] is one request and one log record around [listed]. *)
Lemma get_all_authors_eq (t : trace) :
  get_all_authors world self t =
  match listed (world t (authors_request self)) with
  | Ok authors =>
      (t ++ [EvRequest (authors_request self);
             EvLog INFO (FoundAuthors (match py_len authors with
                                       | Ok n => n
                                       | Raise _ => 0
                                       end))],
       Ok authors)
  | Raise e =>
      (t ++ [EvRequest (authors_request self);
             EvLog ERROR (ErrorFetchingAuthors e)],
       Ok (PyList []))
  end.
Proof.
  unfold get_all_authors, listed, authors_request, error_status, decoded.
  rewrite try_bind_send.
  destruct (world t _) as [| [st bd]]; [run; flat; reflexivity |].
  run. destruct ((400 <=? st) && (st <? 600))%Z; simpl; [flat; reflexivity |].
  destruct bd as [data |]; simpl; [| flat; reflexivity].
  destruct (py_get data (lit "authors") (PyList [])) as [authors | e]; simpl;
    [| flat; reflexivity].
  destruct (py_len authors) as [n | e] eqn:L; simpl; rewrite ?L; flat;
    reflexivity.
Qed.

(** X4. When the library server answers the author-list request with a
    status that is not 4xx/5xx and a JSON object whose [authors] entry is a
    list, [get_all_authors] returns that list unchanged and logs its length;
    it sends that one request only. *)
Theorem get_all_authors_returns_listed :
  forall (t : trace) (r : http_response) (data : list (pystr * pyval))
         (l : list pyval),
    world t (authors_request self) = Replied r ->
    error_status (status_code r) = false ->
    body r = Some (PyDict data) ->
    dict_get data (lit "authors") (PyList []) = PyList l ->
    get_all_authors world self t =
      (t ++ [EvRequest (authors_request self);
             EvLog INFO (FoundAuthors (List.length l))],
       Ok (PyList l)).
Proof.
  intros t r data l W He Hb Ha.
  rewrite get_all_authors_eq. unfold listed, decoded.
  rewrite W, He, Hb. simpl. rewrite Ha. reflexivity.
Qed.

(** X5. [get_all_authors] recovers from every failure: when the request
    raises, the status is 4xx/5xx, the body is not JSON or not an object, or
    the [authors] entry has no length (a number, [null], a boolean), it logs
    one ERROR record and returns the empty list, after its single request. *)
Theorem get_all_authors_recovers :
  forall (t : trace),
    (world t (authors_request self) = Failed \/
     exists r : http_response,
       world t (authors_request self) = Replied r /\
       (error_status (status_code r) = true \/
        body r = None \/
        (exists v, body r = Some v /\ is_record v = false) \/
        (exists data, body r = Some (PyDict data) /\
                      succeeded (py_len (dict_get data (lit "authors") (PyList [])))
                        = false))) ->
    exists e : exn,
      get_all_authors world self t =
        (t ++ [EvRequest (authors_request self);
               EvLog ERROR (ErrorFetchingAuthors e)],
         Ok (PyList [])).
Proof.
  intros t H. rewrite get_all_authors_eq. unfold listed, decoded.
  destruct H as [-> | (r & -> & H)]; [eauto |].
  destruct (error_status (status_code r)) eqn:E; [eauto |].
  destruct H as [H | [H | [(v & Hb & Hv) | (data & Hb & Hl)]]].
  - discriminate.
  - rewrite H. simpl. eauto.
  - rewrite Hb. destruct v; simpl in *; try discriminate; eauto.
  - rewrite Hb. simpl.
    destruct (py_len (dict_get data (lit "authors") (PyList []))); simpl in *;
      [discriminate | eauto].
Qed.

(** X6. Whatever the server answers, [get_all_authors] returns a value the
    loop of [process_authors] can iterate over (a list, a dict or a string),
    and that value is falsy exactly when it has no item: the [for] statement
    itself never raises. *)
Theorem get_all_authors_is_iterable :
  forall (t : trace),
  exists (authors : pyval) (items : list pyval),
    snd (get_all_authors world self t) = Ok authors /\
    py_iter authors = Ok items /\
    truthy authors = negb (Nat.eqb (List.length items) 0).
Proof.
  intros t. rewrite get_all_authors_eq. unfold listed, decoded.
  destruct (world t (authors_request self)) as [| r];
    [exists (PyList []), []; auto |].
  destruct (error_status (status_code r)); [exists (PyList []), []; auto |].
  destruct (body r) as [data |]; simpl; [| exists (PyList []), []; auto].
  destruct (py_get data (lit "authors") (PyList [])) as [authors | e]; simpl;
    [| exists (PyList []), []; auto].
  destruct authors as [| | | | s | l | d]; simpl;
    try (exists (PyList []), []; auto; fail).
  - eexists _, _. repeat split. destruct s; reflexivity.
  - eexists _, _. repeat split. destruct l; reflexivity.
  - eexists _, _. repeat split. destruct d; reflexivity.
Qed.

(** X7. [upload_image_url] never raises and sends exactly one request, the
    POST that carries the image URL for the given author. It returns false
    exactly when that request raises or is answered with a 4xx/5xx status,
    and it logs the failure record of line 122 for every answer whose status
    is not 200, also when it goes on to return true. *)
Theorem upload_image_url_one_post :
  forall (author_id image : pyval) (t : trace),
  exists new : trace,
    upload_image_url world self author_id image t =
      (t ++ new,
       Ok (match world (t ++ [EvLog INFO (UploadingImage image)])
                   (PostAuthorImage (abs_url self) author_id image) with
           | Failed => false
           | Replied r => negb (error_status (status_code r))
           end)) /\
    requests_of new = [PostAuthorImage (abs_url self) author_id image] /\
    match world (t ++ [EvLog INFO (UploadingImage image)])
                (PostAuthorImage (abs_url self) author_id image) with
    | Failed =>
        logs_of new = [(INFO, UploadingImage image);
                       (ERROR, ErrorUploadingImage author_id RequestException)]
    | Replied r =>
        if (status_code r =? 200)%Z
        then logs_of new = [(INFO, UploadingImage image);
                            (INFO, UploadedImage author_id)]
        else In (ERROR, ImageUploadFailed (status_code r)) (logs_of new)
    end.
Proof.
  intros author_id image t. rewrite upload_image_url_eq.
  destruct (world _ _) as [| r]; simpl.
  - eexists. split; [reflexivity |]. simpl. auto.
  - destruct (status_code r =? 200)%Z eqn:E.
    + apply Z.eqb_eq in E. rewrite E. simpl.
      eexists. split; [reflexivity |]. simpl. auto.
    + destruct (error_status (status_code r)); simpl;
        eexists; (split; [reflexivity |]); simpl; auto.
Qed.

(** X8. The requests of [update_author], in order: the PATCH of the
    description when the description argument is non-empty, then the image
    upload when it is invoked. The PATCH always comes first, and nothing
    else is sent. *)
Theorem update_author_request_order :
  forall (author_id dsc image : pyval) (t : trace),
  exists (new : trace) (success : bool),
    update_author world self author_id dsc image t = (t ++ new, Ok success) /\
    requests_of new =
      (if truthy dsc then [PatchAuthor (abs_url self) author_id dsc] else [])
      ++ match image_result world self author_id dsc image t with
         | Some _ => [PostAuthorImage (abs_url self) author_id image]
         | None => []
         end.
Proof.
  intros author_id dsc image t.
  rewrite update_author_eq.
  unfold image_result, description_result, after_description.
  destruct (truthy dsc), (truthy image); simpl;
    rewrite ?update_description_eq;
    try (destruct (world t _) as [| r]; simpl;
         [| destruct (error_status (status_code r)); simpl]);
    rewrite ?upload_image_url_eq;
    try (destruct (world (_ ++ [EvLog INFO (UploadingImage image)]) _) as [| r'];
         simpl;
         [| destruct (status_code r' =? 200)%Z; simpl;
            [| destruct (error_status (status_code r')); simpl]]);
    first [ exists [], true; split; [rewrite app_nil_r; reflexivity |]
          | eexists _, _; split; [flat; reflexivity |] ];
    reflexivity.
Qed.

(** X9. [update_author] does not undo a partial update. When both arguments
    are non-empty, the description update succeeds and the image upload
    fails, it returns false although the description was written: the PATCH
    was sent, its success was logged, and the upload followed. *)
Theorem update_author_keeps_partial_update :
  forall (author_id dsc image : pyval) (t : trace),
    truthy dsc = true ->
    truthy image = true ->
    patch_raises world self author_id dsc t = false ->
    value_of (snd (upload_image_url world self author_id image
                     (after_description world self author_id dsc t))) = false ->
    exists new : trace,
      update_author world self author_id dsc image t = (t ++ new, Ok false) /\
      requests_of new = [PatchAuthor (abs_url self) author_id dsc;
                         PostAuthorImage (abs_url self) author_id image] /\
      In (INFO, UpdatedDescription author_id) (logs_of new).
Proof.
  intros author_id dsc image t Hd Hi Hp Hu.
  unfold patch_raises in Hp. unfold after_description in Hu.
  rewrite Hd in Hu.
  rewrite update_author_eq, Hd, Hi.
  rewrite update_description_eq in *.
  destruct (world t _) as [| r]; [discriminate |].
  rewrite Hp in *. simpl in Hu.
  rewrite upload_image_url_eq in *.
  destruct (world _ (PostAuthorImage (abs_url self) author_id image)) as [| r'].
  - eexists. split; [flat; reflexivity |]. simpl. auto.
  - destruct (status_code r' =? 200)%Z; [discriminate |].
    destruct (error_status (status_code r')); [| discriminate].
    eexists. split; [flat; reflexivity |]. simpl. auto.
Qed.

End Library.

(** *** The loop *)




Section Loop.

Variable world : World.
Variable self : updater.















End Loop.

(** *** The whole run *)

Ltac emits_preview :=
  repeat emits_step; try exact I; try apply firstn_le_length.

Section Run.

Variable world : World.
Variable self : updater.




Lemma search_wikipedia_preview (author_name : pyval) :
  emits preview_bounded (search_wikipedia world author_name).
Proof. unfold search_wikipedia. emits_preview. Qed.

Lemma update_author_preview (author_id dsc image : pyval) :
  emits preview_bounded (update_author world self author_id dsc image).
Proof.
  unfold update_author, update_description, upload_image_url. emits_preview.
Qed.

Lemma process_author_preview (dry_run : bool) (delay : float) (author : pyval)
    (c : run_summary) :
  emits preview_bounded (process_author world self dry_run delay author c).
Proof.
  unfold process_author, needs_update.
  emits_preview;
    first [apply search_wikipedia_preview | apply update_author_preview].
Qed.

Lemma for_authors_preview (dry_run : bool) (delay : float) (items : list pyval) :
  forall c, emits preview_bounded (for_authors world self dry_run delay items c).
Proof.
  induction items as [| a items IH]; intros c; simpl.
  - apply emits_ret.
  - apply emits_bind; [apply process_author_preview | intros; apply IH].
Qed.

(** X15. The description a dry run previews in its log is cut to a bounded
    length: no log record of a run, in either mode and whatever the services
    answer, carries a preview of more than 100 characters. *)
Theorem process_authors_previews_are_bounded :
  forall (dry_run : bool) (delay : float) (t : trace),
    Forall preview_bounded (events_of (process_authors world self dry_run delay) t).
Proof.
  intros dry_run delay t.
  assert (H : emits preview_bounded (process_authors world self dry_run delay)).
  { unfold process_authors.
    apply emits_bind; [unfold get_all_authors; emits_preview |].
    intros authors. destruct (negb (truthy authors)); [emits_preview |].
    apply emits_bind; [apply emits_pure | intros items].
    apply emits_bind; [apply for_authors_preview | intros c].
    emits_preview. }
  destruct (H t) as (new & E & F).
  erewrite events_of_app by exact E. exact F.
Qed.

End Run.

(** *** [needs_update] and [__init__] *)

(** X16. [needs_update] has no effect. On a record it answers false exactly
    when both the [description] and the [imagePath] entries are present with
    a truthy value, so a missing key, [null] and the empty string all count
    as missing metadata; on anything that is not a record it raises
    [AttributeError]. *)
Theorem needs_update_reads_both_entries :
  forall (author : pyval) (t : trace),
    match author with
    | PyDict d =>
        needs_update author t = (t, Ok (negb (complete d))) /\
        (complete d = true <->
         exists x y : pyval,
           dict_find d (lit "description") = Some x /\ truthy x = true /\
           dict_find d (lit "imagePath") = Some y /\ truthy y = true)
    | _ => needs_update author t = (t, Raise AttributeError)
    end.
Proof.
  intros author t. destruct author as [| | | | | | d]; try reflexivity.
  split.
  - unfold needs_update, complete, description_of, image_path_of. run.
    rewrite negb_andb. reflexivity.
  - unfold complete, description_of, image_path_of, dict_get.
    rewrite andb_true_iff. split.
    + intros [Hd Hi].
      destruct (dict_find d (lit "description")) as [x |]; [| discriminate].
      destruct (dict_find d (lit "imagePath")) as [y |]; [| discriminate].
      eauto 6.
    + intros (x & y & -> & Hx & -> & Hy). auto.
Qed.

Lemma lstrip_char_spec (c : N) (s : pystr) :
  exists n : nat,
    s = repeat c n ++ lstrip_char c s /\
    match lstrip_char c s with [] => True | x :: _ => x <> c end.
Proof.
  induction s as [| x s IH]; simpl.
  - exists 0. auto.
  - destruct (x =? c)%N eqn:E.
    + apply N.eqb_eq in E. subst x. destruct IH as (n & E1 & H).
      exists (S n). simpl. rewrite <- E1. auto.
    + apply N.eqb_neq in E. exists 0. auto.
Qed.

Lemma lstrip_char_fixed (c : N) (s : pystr) :
  match s with [] => True | x :: _ => x <> c end -> lstrip_char c s = s.
Proof.
  destruct s as [| x s]; simpl; [reflexivity |].
  intros H. apply N.eqb_neq in H. rewrite H. reflexivity.
Qed.

(** X17. [__init__] stores the server URL without its trailing slashes and
    with nothing else changed: the argument is the stored URL followed by
    slashes only, the stored URL does not end with a slash, and constructing
    again from the stored URL changes nothing. The library identifier is
    stored as given, and the authorization header is [Bearer] followed by
    the token. *)
Theorem init_strips_trailing_slashes :
  forall (url api_token : pystr) (library : pyval),
    let self := config (init url api_token library) in
    (exists n : nat, url = abs_url self ++ repeat slash n) /\
    match rev (abs_url self) with [] => True | x :: _ => x <> slash end /\
    abs_url (config (init (abs_url self) api_token library)) = abs_url self /\
    library_id self = library /\
    headers (init url api_token library) =
      [(lit "Authorization", lit "Bearer " ++ api_token)].
Proof.
  intros url api_token library. simpl. unfold rstrip_char.
  destruct (lstrip_char_spec slash (rev url)) as (n & E & H).
  rewrite rev_involutive. repeat split; auto.
  - exists n. rewrite <- (rev_involutive url), E at 1.
    rewrite rev_app_distr, rev_repeat. reflexivity.
  - rewrite (lstrip_char_fixed _ _ H). reflexivity.
Qed.

(** *** The further properties on the scenarios *)

(** The lookup for Jane, from its two replies. *)
Lemma search_wikipedia_succeeds_witness :
  top_title (jane_world [] (GetWikipediaSearch (name_of jane)))
    = Some (PyStr (lit "Jane Doe")) /\
  first_page (jane_world ([] ++ [EvRequest (GetWikipediaSearch (name_of jane))])
                (GetWikipediaPage (PyStr (lit "Jane Doe"))))
    = Some (PyDict jane_page) /\
  dict_get jane_page (lit "extract") (PyStr [])
    = PyStr (lit " Jane Doe is a writer... ") /\
  dict_get jane_page (lit "original") (PyDict [])
    = PyDict [(lit "source", PyStr (lit "http://x/y.jpg"))] /\
  search_wikipedia jane_world (name_of jane) [] =
    ([] ++ [EvRequest (GetWikipediaSearch (name_of jane));
            EvRequest (GetWikipediaPage (PyStr (lit "Jane Doe")));
            EvLog INFO (FoundWikipediaData (name_of jane))],
     Ok (Some {| description := strip (lit " Jane Doe is a writer... ");
                 image_url := dict_get [(lit "source", PyStr (lit "http://x/y.jpg"))]
                                (lit "source") PyNone;
                 source := wiki_prefix
                           ++ replace space underscore (lit "Jane Doe") |})).
Proof.
  split; [reflexivity |]. split; [reflexivity |].
  split; [reflexivity |]. split; [reflexivity |].
  apply (search_wikipedia_succeeds jane_world (name_of jane) []
           (title := lit "Jane Doe") (page_info := jane_page)); reflexivity.
Defined.

Lemma search_wikipedia_result_normalised_witness :
  snd (search_wikipedia jane_world (name_of jane) []) = Ok (Some jane_result) /\
  strip (description jane_result) = description jane_result /\
  exists title path : pystr,
    top_title (jane_world [] (GetWikipediaSearch (name_of jane)))
      = Some (PyStr title) /\
    source jane_result = wiki_prefix ++ path /\
    List.length path = List.length title /\
    ~ In space path.
Proof.
  split; [vm_compute; reflexivity |].
  apply (search_wikipedia_result_normalised jane_world (name_of jane) []
           (r := jane_result)).
  vm_compute. reflexivity.
Defined.

(** The author list of Jane's server. *)
Lemma get_all_authors_returns_listed_witness :
  jane_world [] (authors_request self)
    = Replied {| status_code := 200;
                 body := Some (PyDict [(lit "authors", PyList [PyDict jane])]) |} /\
  error_status 200 = false /\
  dict_get [(lit "authors", PyList [PyDict jane])] (lit "authors") (PyList [])
    = PyList [PyDict jane] /\
  get_all_authors jane_world self [] =
    ([] ++ [EvRequest (authors_request self);
            EvLog INFO (FoundAuthors (List.length [PyDict jane]))],
     Ok (PyList [PyDict jane])).
Proof.
  split; [reflexivity |]. split; [reflexivity |]. split; [reflexivity |].
  apply (get_all_authors_returns_listed jane_world self []
           (r := {| status_code := 200;
                    body := Some (PyDict [(lit "authors", PyList [PyDict jane])]) |})
           (data := [(lit "authors", PyList [PyDict jane])]));
    reflexivity.
Defined.

(** The library server answers 500. *)
Lemma get_all_authors_recovers_witness :
  Faults.answering 500 [] (authors_request self)
    = Replied {| status_code := 500; body := None |} /\
  error_status 500 = true /\
  exists e : exn,
    get_all_authors (Faults.answering 500) self [] =
      ([] ++ [EvRequest (authors_request self);
              EvLog ERROR (ErrorFetchingAuthors e)],
       Ok (PyList [])).
Proof.
  split; [reflexivity |]. split; [reflexivity |].
  apply (get_all_authors_recovers (Faults.answering 500) self []).
  right. exists {| status_code := 500; body := None |}.
  split; [reflexivity |]. left. reflexivity.
Defined.

(** The PATCH is accepted and the upload is answered with 500. *)
Lemma update_author_keeps_partial_update_witness :
  truthy (PyStr (lit "Jane Doe is a writer...")) = true /\
  truthy (PyStr (lit "http://x/y.jpg")) = true /\
  patch_raises Faults.upload_fails self (PyStr (lit "a1"))
    (PyStr (lit "Jane Doe is a writer...")) [] = false /\
  value_of (snd (upload_image_url Faults.upload_fails self (PyStr (lit "a1"))
                   (PyStr (lit "http://x/y.jpg"))
                   (after_description Faults.upload_fails self (PyStr (lit "a1"))
                      (PyStr (lit "Jane Doe is a writer...")) []))) = false /\
  exists new : trace,
    update_author Faults.upload_fails self (PyStr (lit "a1"))
        (PyStr (lit "Jane Doe is a writer...")) (PyStr (lit "http://x/y.jpg")) [] =
      ([] ++ new, Ok false) /\
    requests_of new =
      [PatchAuthor (abs_url self) (PyStr (lit "a1"))
         (PyStr (lit "Jane Doe is a writer..."));
       PostAuthorImage (abs_url self) (PyStr (lit "a1"))
         (PyStr (lit "http://x/y.jpg"))] /\
    In (INFO, UpdatedDescription (PyStr (lit "a1"))) (logs_of new).
Proof.
  split; [reflexivity |]. split; [reflexivity |]. split; [reflexivity |].
  split; [reflexivity |].
  apply (update_author_keeps_partial_update Faults.upload_fails self
           (PyStr (lit "a1")) (PyStr (lit "Jane Doe is a writer..."))
           (PyStr (lit "http://x/y.jpg")) []); reflexivity.
Defined.







(** The whole run on that list: one author skipped, then the exception, and
    no summary. *)
Example odd_list_run :
  process_authors Faults.odd_list self false 1%float [] =
    ([EvRequest (GetAuthors (abs_url self) None);
      EvLog INFO (FoundAuthors 3);
      EvLog INFO (Skipping (PyStr (lit "Ann Poe")))],
     Raise AttributeError).
Proof. vm_compute. reflexivity. Qed.

(** *** How many requests a run sends, and what a dry run shows *)

Lemma requests_of_app (a b : trace) :
  requests_of (a ++ b) = requests_of a ++ requests_of b.
Proof.
  induction a as [| e a IH]; simpl; [reflexivity |].
  destruct e; simpl; rewrite IH; reflexivity.
Qed.

Section Budget.

Variable world : World.
Variable self : updater.

Lemma search_wikipedia_request_count (author_name : pyval) (t : trace) :
  exists (new : trace) (wiki : option wiki_data),
    search_wikipedia world author_name t = (t ++ new, Ok wiki) /\
    List.length (requests_of new) <= 2.
Proof.
  rewrite search_wikipedia_eq. simpl.
  destruct (rbind (decoded (world t (GetWikipediaSearch author_name)))
              search_title) as [[page_title |] | e].
  - destruct (rbind (decoded _) (build_result page_title)) as [r | e];
      eexists _, _; (split; [flat; reflexivity | simpl; lia]).
  - eexists _, _. split; [flat; reflexivity | simpl; lia].
  - eexists _, _. split; [flat; reflexivity | simpl; lia].
Qed.

Lemma update_author_request_count (author_id dsc image : pyval) (t : trace) :
  exists (new : trace) (success : bool),
    update_author world self author_id dsc image t = (t ++ new, Ok success) /\
    List.length (requests_of new) <= 2.
Proof.
  rewrite update_author_eq.
  destruct (truthy dsc), (truthy image); simpl;
    rewrite ?update_description_eq;
    try (destruct (world t _) as [| r]; simpl;
         [| destruct (error_status (status_code r)); simpl]);
    rewrite ?upload_image_url_eq;
    try (destruct (world (_ ++ [EvLog INFO (UploadingImage image)]) _) as [| r'];
         simpl;
         [| destruct (status_code r' =? 200)%Z; simpl;
            [| destruct (error_status (status_code r')); simpl]]);
    first [ exists [], true; split; [rewrite app_nil_r; reflexivity |]
          | eexists _, _; split; [flat; reflexivity |] ];
    simpl; lia.
Qed.

Lemma dry_run_logs_requests (author_name : pyval) (w : wiki_data) :
  requests_of (dry_run_logs author_name w) = [].
Proof.
  unfold dry_run_logs.
  destruct (truthy (PyStr (description w))), (truthy (image_url w)); reflexivity.
Qed.

Lemma process_author_request_count (dry_run : bool) (delay : float)
    (d : list (pystr * pyval)) (c : run_summary) (t : trace) :
  exists new : trace,
    fst (process_author world self dry_run delay (PyDict d) c t) = t ++ new /\
    List.length (requests_of new)
      <= (if complete d then 0 else if dry_run then 2 else 4).
Proof.
  destruct (complete d) eqn:Hc.
  - rewrite process_author_complete by exact Hc.
    eexists. split; [reflexivity | simpl; lia].
  - destruct (search_wikipedia_request_count (name_of d)
                (t ++ [EvLog INFO (Processing (name_of d))]))
      as (n1 & wiki & E & B).
    destruct dry_run.
    + rewrite process_author_dry, E by exact Hc.
      destruct wiki as [w |].
      * exists ([EvLog INFO (Processing (name_of d))] ++ n1
                ++ dry_run_logs (name_of d) w ++ [EvSleep delay]).
        split; [simpl; repeat rewrite <- app_assoc; reflexivity |].
        rewrite !requests_of_app, dry_run_logs_requests, !length_app.
        simpl. lia.
      * exists ([EvLog INFO (Processing (name_of d))] ++ n1 ++ [EvSleep delay]).
        split; [simpl; repeat rewrite <- app_assoc; reflexivity |].
        rewrite !requests_of_app, !length_app. simpl. lia.
    + rewrite process_author_live, E by exact Hc.
      destruct wiki as [w |].
      * destruct (update_author_request_count (id_of d)
                    (description_argument d w) (image_argument d w)
                    ((t ++ [EvLog INFO (Processing (name_of d))]) ++ n1))
          as (n2 & success & E2 & B2).
        rewrite E2.
        exists ([EvLog INFO (Processing (name_of d))] ++ n1 ++ n2
                ++ [EvSleep delay]).
        split; [simpl; repeat rewrite <- app_assoc; reflexivity |].
        rewrite !requests_of_app, !length_app. simpl. lia.
      * exists ([EvLog INFO (Processing (name_of d))] ++ n1 ++ [EvSleep delay]).
        split; [simpl; repeat rewrite <- app_assoc; reflexivity |].
        rewrite !requests_of_app, !length_app. simpl. lia.
Qed.

(** X18. The loop never retries and never sends more than four requests
    for one author: over a list of author records, whatever the delay and
    whether the loop returns or raises, it sends at most four requests per
    incomplete record in live mode (search, page, PATCH, image upload), at
    most two in dry-run mode, and none for a complete record. *)
Theorem for_authors_request_budget :
  forall (dry_run : bool) (delay : float) (ds : list (list (pystr * pyval)))
         (c : run_summary) (t : trace),
  exists new : trace,
    fst (for_authors world self dry_run delay (map PyDict ds) c t) = t ++ new /\
    List.length (requests_of new) <= (if dry_run then 2 else 4) * incomplete ds.
Proof.
  intros dry_run delay ds. unfold incomplete.
  induction ds as [| d ds IH]; intros c t; simpl.
  - exists []. rewrite app_nil_r. split; [reflexivity | simpl; lia].
  - unfold bind.
    destruct (process_author_request_count dry_run delay d c t)
      as (n1 & E1 & B1).
    destruct (process_author world self dry_run delay (PyDict d) c t)
      as [t1 [c1 | e]]; simpl in E1; subst t1.
    + destruct (IH c1 (t ++ n1)) as (n2 & E2 & B2).
      exists (n1 ++ n2). rewrite E2, app_assoc.
      split; [reflexivity |].
      rewrite requests_of_app, length_app.
      destruct (complete d), dry_run; simpl in *; lia.
    + exists n1. split; [reflexivity |].
      destruct (complete d), dry_run; simpl in *; lia.
Qed.


End Budget.


(** *** A delay [time.sleep] refuses *)

(** With a negative delay the first lookup is followed by the call of
    [time.sleep], which raises: the run ends there, without a summary. *)
Example negative_delay_run :
  process_authors two_authors_world self true (-1)%float [] =
    ([EvRequest (GetAuthors (abs_url self) None);
      EvLog INFO (FoundAuthors 2);
      EvLog INFO (Processing (PyStr (lit "Jane Doe")));
      EvRequest (GetWikipediaSearch (PyStr (lit "Jane Doe")));
      EvRequest (GetWikipediaPage (PyStr (lit "Jane Doe")));
      EvLog INFO (FoundWikipediaData (PyStr (lit "Jane Doe")));
      EvLog INFO (DryRunWouldUpdate (PyStr (lit "Jane Doe")));
      EvLog INFO (DryRunDescription (lit "Jane Doe is a writer..."));
      EvLog INFO (DryRunImage (PyStr (lit "http://x/y.jpg")));
      EvSleep (-1)%float],
     Raise ValueError).
Proof. vm_compute. reflexivity. Qed.

Example sleep_error_examples :
  sleep_error 1%float = None /\
  sleep_error 0%float = None /\
  sleep_error (-1)%float = Some ValueError /\
  sleep_error nan = Some ValueError /\
  sleep_error infinity = Some OverflowError /\
  sleep_error 1e10%float = Some OverflowError.
Proof. vm_compute. repeat split. Qed.
